(** * ALOGIT-Python: the ALOGIT interface, its abbreviation registry, its
    input-file serializer, its log parser, and the synthetic model builder.

    Shallow embedding of
      - choice_model/interface/interface.py
      - choice_model/interface/alogit.py
      - choice_model/synthetic.py

    Python strings are modelled as [string]; a character is a code point
    in the range 0..255.  Python lists are lists, ordered [dict]s that are
    iterated are association lists in insertion order, and the two lookup
    tables of the interface ([abbreviation], [elongation]) are [gmap]s. *)

From Stdlib Require Import Ascii String DecimalString DecimalNat DecimalFacts.
From stdpp Require Import gmap strings list fin_maps.

Local Open Scope stdpp_scope.
Set Warnings "-clear-no-such-hyp".

(** ** Python built-ins used by the code *)

Module Py.

(** [str(n)] for a non-negative integer. *)
Definition str (n : nat) : string := NilEmpty.string_of_uint (Nat.to_uint n).

(** [sep.join(parts)] *)
Fixpoint join (sep : string) (parts : list string) : string :=
  match parts with
  | [] => ""
  | [p] => p
  | p :: rest => p +:+ sep +:+ join sep rest
  end.

(** [''.join(parts)] *)
Definition concat (parts : list string) : string := foldr String.app "" parts.

(** Exceptions raised by the modelled code. *)
Inductive exn : Type :=
| KeyError (key : string)
| IndexError
| ValueError
| TypeError
| AttributeError
| OSError
| NotEstimated.

(** Outcome of a call that may raise. *)
Inductive result (A : Type) : Type :=
| Ok (a : A)
| Raise (e : exn).
Arguments Ok {A} a.
Arguments Raise {A} e.

Global Instance result_ret : MRet result := λ A a, Ok a.
Global Instance result_bind : MBind result := λ A B k r,
  match r with
  | Ok a => k a
  | Raise e => Raise e
  end.
Global Instance result_fmap : FMap result := λ A B f r,
  match r with
  | Ok a => Ok (f a)
  | Raise e => Raise e
  end.

(** [for x in l: ...] over a body that may raise, threading the variables
    the body updates. *)
Definition for_each {A S} (l : list A) (init : S) (body : S → A → result S)
  : result S :=
  foldl (λ acc x, acc ≫= λ s, body s x) (Ok init) l.

(** An insertion-ordered [dict] with string keys. *)
Definition dict (V : Type) : Type := list (string * V).

Definition keys {V} (d : dict V) : list string := d.*1.
Definition values {V} (d : dict V) : list V := d.*2.

Fixpoint get {V} (d : dict V) (k : string) : option V :=
  match d with
  | [] => None
  | (k', v) :: rest => if decide (k' = k) then Some v else get rest k
  end.

(** [d[k]], raising [KeyError] on a missing key. *)
Definition getitem {V} (d : dict V) (k : string) : result V :=
  match get d k with
  | Some v => Ok v
  | None => Raise (KeyError k)
  end.

(** [dict(zip(ks, vs))]: pairs are inserted left to right, a later pair
    overwrites an earlier one with the same key. *)
Definition dict_zip (ks vs : list string) : gmap string string :=
  foldl (λ d kv, <[kv.1 := kv.2]> d) ∅ (zip ks vs).

(** [d[k] = v]: an existing key keeps its position. *)
Fixpoint setitem {V} (d : dict V) (k : string) (v : V) : dict V :=
  match d with
  | [] => [(k, v)]
  | (k', v') :: rest =>
      if decide (k' = k) then (k, v) :: rest else (k', v') :: setitem rest k v
  end.

(** A dict built by inserting the items from left to right (dict
    comprehensions, [dict(...)]). *)
Definition dict_of_items {V} (items : list (string * V)) : dict V :=
  foldl (λ d kv, setitem d kv.1 kv.2) [] items.

(** [enumerate(l)] *)
Definition enumerate {A} (l : list A) : list (nat * A) :=
  zip (seq 0 (length l)) l.

(** [l[:-1]] *)
Definition all_but_last {A} (l : list A) : list A := take (length l - 1) l.

(** [l[-1]] *)
Definition last_item {A} (l : list A) : result A :=
  match last l with
  | Some x => Ok x
  | None => Raise IndexError
  end.

(** [str.isspace] for one character (code points 0..255), the whitespace
    of [str.split] and [str.strip]. *)
Definition isspace (c : ascii) : bool :=
  let n := nat_of_ascii c in
  ((9 <=? n) && (n <=? 13)) || ((28 <=? n) && (n <=? 32))
  || (n =? 133) || (n =? 160).

Definition nonempty (s : string) : bool :=
  match s with
  | "" => false
  | _ => true
  end.

Definition cons_head (c : ascii) (pieces : list string) : list string :=
  match pieces with
  | [] => [String c ""]
  | piece :: rest => String c piece :: rest
  end.

(** The pieces of [s] between whitespace characters, empty ones
    included. *)
Fixpoint fields (s : string) : list string :=
  match s with
  | "" => [""]
  | String c rest =>
      if isspace c then "" :: fields rest else cons_head c (fields rest)
  end.

(** [s.split()] *)
Definition split (s : string) : list string :=
  filter (λ piece, nonempty piece = true) (fields s).

(** [s.split(' ')[0]] *)
Fixpoint before_blank (s : string) : string :=
  match s with
  | "" => ""
  | String c rest =>
      if Ascii.eqb c " "%char then "" else String c (before_blank rest)
  end.

(** [sub in s] *)
Fixpoint contains (sub s : string) : bool :=
  String.prefix sub s
  || match s with
     | "" => false
     | String _ rest => contains sub rest
     end.

(** [l[i]] for a non-negative [i]. *)
Definition index {A} (l : list A) (i : nat) : result A :=
  match l !! i with
  | Some x => Ok x
  | None => Raise IndexError
  end.

(** [l[-2]] *)
Definition second_to_last {A} (l : list A) : result A :=
  match reverse l !! 1 with
  | Some x => Ok x
  | None => Raise IndexError
  end.


End Py.

(** ** [textwrap.wrap(text, width, break_long_words=False)]

    The standard-library routine the serializer calls, with every other
    option at its default: tabs are expanded, whitespace is replaced by
    blanks, chunks are split at whitespace, at hyphens inside words and
    around em-dashes, and blank chunks are dropped at line ends. *)

Module textwrap.

Definition code (c : ascii) : nat := nat_of_ascii c.

Definition between (lo hi : nat) (c : ascii) : bool :=
  (lo <=? code c) && (code c <=? hi).

Definition hyphen : ascii := "-"%char.
Definition blank : ascii := " "%char.

(** [textwrap._whitespace]: tab, newline, vertical tab, form feed,
    carriage return, blank. *)
Definition _whitespace (c : ascii) : bool :=
  between 9 13 c || (code c =? 32).

(** The regular-expression class [\d]. *)
Definition is_decimal (c : ascii) : bool := between 48 57 c.

(** The regular-expression class [\w]. *)
Definition is_word (c : ascii) : bool :=
  between 48 57 c || between 65 90 c || (code c =? 95) || between 97 122 c
  || (code c =? 170) || (code c =? 178) || (code c =? 179) || (code c =? 181)
  || (code c =? 185) || (code c =? 186) || between 188 190 c
  || between 192 214 c || between 216 246 c || between 248 255 c.

(** [letter = [^\d\W]] *)
Definition is_letter (c : ascii) : bool := is_word c && negb (is_decimal c).

(** [word_punct]: a word character, an exclamation mark, a double or
    single quote, an ampersand, a full stop, a comma or a question mark. *)
Definition is_word_punct (c : ascii) : bool :=
  is_word c
  || (code c =? 33) || (code c =? 34) || (code c =? 39) || (code c =? 38)
  || (code c =? 46) || (code c =? 44) || (code c =? 63).

Definition is_hyphen (c : ascii) : bool := code c =? 45.

Definition holds (p : ascii → bool) (c : option ascii) : bool :=
  match c with
  | Some c => p c
  | None => false
  end.

Fixpoint blanks (n : nat) : string :=
  match n with
  | 0 => ""
  | S n => String blank (blanks n)
  end.

(** [text.expandtabs(8)]; [column] is the column of the next character. *)
Fixpoint expandtabs_from (column : nat) (text : string) : string :=
  match text with
  | "" => ""
  | String c rest =>
      if code c =? 9 then
        let incr := 8 - column mod 8 in
        blanks incr +:+ expandtabs_from (column + incr) rest
      else if (code c =? 10) || (code c =? 13) then
        String c (expandtabs_from 0 rest)
      else
        String c (expandtabs_from (S column) rest)
  end.

Definition expandtabs (text : string) : string := expandtabs_from 0 text.

(** [text.translate(unicode_whitespace_trans)] *)
Fixpoint translate (text : string) : string :=
  match text with
  | "" => ""
  | String c rest =>
      String (if _whitespace c then blank else c) (translate rest)
  end.

Definition _munge_whitespace (text : string) : string :=
  translate (expandtabs text).

(** *** [_split]: the chunks matched by [wordsep_re] *)

(** [-*\w] at the head of [s]. *)
Fixpoint dashes_then_word (s : string) : bool :=
  match s with
  | "" => false
  | String c rest => if is_hyphen c then dashes_then_word rest else is_word c
  end.

(** [(?<=word_punct) (?=-{2,}\w)] at a position preceded by [p1] and
    followed by [s]. *)
Definition emdash_at (p1 : option ascii) (s : string) : bool :=
  holds is_word_punct p1
  && match s with
     | String c1 (String c2 rest) =>
         is_hyphen c1 && is_hyphen c2 && dashes_then_word rest
     | _ => false
     end.

(** [(?= letter -? letter)] *)
Definition letters_ahead (s : string) : bool :=
  match s with
  | String l1 (String l2 rest) =>
      is_letter l1
      && (is_letter l2
          || (is_hyphen l2
              && match rest with
                 | String l3 _ => is_letter l3
                 | "" => false
                 end))
  | _ => false
  end.

(** A hyphen preceded by [p3 p2 p1] and followed by [rest] ends a chunk:
    [(?<=letter{2}-) | (?<=letter-letter-)] then [(?= letter -? letter)]. *)
Definition hyphen_break (p3 p2 p1 : option ascii) (rest : string) : bool :=
  ((holds is_letter p2 && holds is_letter p1)
   || (holds is_letter p3 && holds is_hyphen p2 && holds is_letter p1))
  && letters_ahead rest.

(** What the match in progress is. *)
Inductive matching : Type :=
| Nothing      (* no match in progress: the next character starts one *)
| Whitespace   (* a run of whitespace *)
| EmDash       (* [-{2,}] between words *)
| Word.        (* [[^whitespace]+?] *)

(** The match a character starting a new match belongs to: whitespace,
    an em-dash, or a word, tried in this order. *)
Definition start (p1 : option ascii) (s : string) : matching :=
  match s with
  | "" => Nothing
  | String c _ =>
      if _whitespace c then Whitespace
      else if emdash_at p1 s then EmDash
      else Word
  end.

(** Whether the match in progress ends before the first character [c] of
    [s], and the match in progress after [c]; [p3 p2 p1] are the three
    characters before [s]. *)
Definition step (now : matching) (p3 p2 p1 : option ascii) (s : string)
  : bool * matching :=
  match s with
  | "" => (false, now)
  | String c rest =>
      match now with
      | Nothing => (true, start p1 s)
      | Whitespace =>
          if _whitespace c then (false, Whitespace) else (true, start p1 s)
      | EmDash =>
          if is_hyphen c then (false, EmDash) else (true, start p1 s)
      | Word =>
          if _whitespace c then (true, start p1 s)
          else if is_hyphen c && hyphen_break p3 p2 p1 rest
          then (false, Nothing)
          else if emdash_at p1 s then (true, start p1 s)
          else (false, Word)
      end
  end.

(** The pieces [wordsep_re.split] cuts [s] into, the first of which
    continues the match in progress. *)
Fixpoint matches (now : matching) (p3 p2 p1 : option ascii) (s : string)
  : list string :=
  match s with
  | "" => [""]
  | String c rest =>
      let '(ends, now') := step now p3 p2 p1 s in
      let pieces := Py.cons_head c (matches now' p2 p1 (Some c) rest) in
      if ends then "" :: pieces else pieces
  end.

(** [_split(text)]: the non-empty pieces [wordsep_re.split] returns. *)
Definition _split (text : string) : list string :=
  filter (λ chunk, Py.nonempty chunk = true) (matches Nothing None None None text).

(** *** [_wrap_chunks] *)

(** [chunk.strip() == ''] *)
Fixpoint strip_is_empty (chunk : string) : bool :=
  match chunk with
  | "" => true
  | String c rest => Py.isspace c && strip_is_empty rest
  end.

(** The inner loop: chunks are moved to the current line while they fit. *)
Fixpoint fill (width : nat) (cur_line : list string) (cur_len : nat)
    (chunks : list string) : list string * list string :=
  match chunks with
  | [] => (cur_line, [])
  | chunk :: rest =>
      let l := String.length chunk in
      if cur_len + l <=? width
      then fill width (cur_line ++ [chunk]) (cur_len + l) rest
      else (cur_line, chunks)
  end.

(** [_handle_long_word] with [break_long_words=False]: the long chunk is
    taken only onto an empty line. *)
Definition _handle_long_word (chunks cur_line : list string)
  : list string * list string :=
  match cur_line, chunks with
  | [], chunk :: rest => ([chunk], rest)
  | _, _ => (cur_line, chunks)
  end.

(** One iteration of the outer loop, for a non-empty list of chunks:
    the lines so far and the chunks still to place. *)
Definition next_line (width : nat) (lines chunks : list string)
  : list string * list string :=
  let chunks :=
    match chunks with
    | first :: rest =>
        if strip_is_empty first && bool_decide (lines ≠ []) then rest
        else chunks
    | [] => chunks
    end in
  let '(cur_line, chunks) := fill width [] 0 chunks in
  let '(cur_line, chunks) :=
    match chunks with
    | chunk :: _ =>
        if width <? String.length chunk
        then _handle_long_word chunks cur_line
        else (cur_line, chunks)
    | [] => (cur_line, chunks)
    end in
  let cur_line :=
    match last cur_line with
    | Some chunk =>
        if strip_is_empty chunk then removelast cur_line else cur_line
    | None => cur_line
    end in
  let lines :=
    match cur_line with
    | [] => lines
    | _ => lines ++ [Py.concat cur_line]
    end in
  (lines, chunks).

(** [while chunks: ...]; every iteration removes a chunk, so the number of
    chunks bounds the number of iterations. *)
Fixpoint _wrap_chunks_loop (fuel width : nat) (lines chunks : list string)
  : list string :=
  match fuel, chunks with
  | S fuel, _ :: _ =>
      let '(lines, chunks) := next_line width lines chunks in
      _wrap_chunks_loop fuel width lines chunks
  | _, _ => lines
  end.

Definition _wrap_chunks (width : nat) (chunks : list string) : list string :=
  _wrap_chunks_loop (length chunks) width [] chunks.

(** [textwrap.wrap(text, width=width, break_long_words=False)], for a
    positive [width]. *)
Definition wrap (text : string) (width : nat) : list string :=
  _wrap_chunks width (_split (_munge_whitespace text)).

End textwrap.



(** ** The choice model

    [choice_model/model.py] is not part of the verified sources; the model
    object is represented by the attributes the interface reads. *)

Record Term : Type := {
  parameter : string;
  variable : string
}.

Record Utility : Type := {
  intercept : option string;
  terms : list Term
}.

Record ChoiceModel : Type := {
  title : string;
  alternatives : list string;
  choice_column : string;
  availability : Py.dict string;
  alternative_independent_variables : list string;
  alternative_dependent_variables : Py.dict (Py.dict string);
  intercepts : Py.dict string;
  parameters : list string;
  specification : Py.dict Utility;
  (** [model.data.columns] *)
  data_columns : list string
}.

(** Modelled from the spec: [ChoiceModel.all_variables] is missing; a
    variable is either alternative-independent or alternative-dependent, and
    the latter are named by the keys of their column mapping. *)
Definition all_variables (m : ChoiceModel) : list string :=
  alternative_independent_variables m
    ++ Py.keys (alternative_dependent_variables m).

(** Modelled from the spec: [ChoiceModel.alternative_dependent_variable_fields]
    is missing; an alternative-dependent variable is stored as one column per
    alternative, and the fields are those columns, variable by variable. *)
Definition alternative_dependent_variable_fields (m : ChoiceModel)
  : list string :=
  mjoin (Py.values <$> Py.values (alternative_dependent_variables m)).

(** Modelled from the spec: [ChoiceModel.number_of_parameters] is missing;
    with [include_intercepts=True] it is the number of parameters including
    intercepts. *)
Definition number_of_parameters (m : ChoiceModel) : nat :=
  length (parameters m) + length (intercepts m).

(** ** The abbreviation registry ([AlogitInterface._create_abbreviations]) *)

Module Alo.

Definition _ALO_COMMAND_TITLE : string := "$title ".
Definition _ALO_COMMAND_ESTIMATE : string := "$estimate".
Definition _ALO_COMMAND_COEFFICIENTS : string := "$coeff".
Definition _ALO_COMMAND_ALTERNATIVES : string := "$nest root()".
Definition _ALO_COMMAND_ARRAY : string := "$array".

Definition _ALO_LABEL_CHOICE : string := "ch".
Definition _ALO_LABEL_CHOICE_COLUMN : string := "alt".
Definition _ALO_LABEL_AVAILABILITY : string := "av".
Definition _ALO_LABEL_VARIABLE : string := "v".
Definition _ALO_LABEL_CHOICE_DEPENDENT_VARIABLE : string := "cv".
Definition _ALO_LABEL_INTERCEPT : string := "c".
Definition _ALO_LABEL_PARAMETER : string := "prm".

Definition _MAX_CHARACTER_LENGTH : nat := 10.
Definition _MAX_LINE_LENGTH : nat := 77.

End Alo.

(** [label + str(number)] for [number] in [enumerate(names, start=1)]. *)
Definition numbered (label : string) (names : list string) : list string :=
  (λ number, label +:+ Py.str number) <$> seq 1 (length names).

(** The list [full] at the end of [_create_abbreviations]. *)
Definition full (m : ChoiceModel) : list string :=
  alternatives m
    ++ [choice_column m]
    ++ Py.values (availability m)
    ++ all_variables m
    ++ alternative_dependent_variable_fields m
    ++ Py.values (intercepts m)
    ++ parameters m.

(** The list [abbreviations] at the end of [_create_abbreviations]. *)
Definition abbreviations (m : ChoiceModel) : list string :=
  numbered Alo._ALO_LABEL_CHOICE (alternatives m)
    ++ [Alo._ALO_LABEL_CHOICE_COLUMN]
    ++ numbered Alo._ALO_LABEL_AVAILABILITY (Py.values (availability m))
    ++ numbered Alo._ALO_LABEL_VARIABLE (all_variables m)
    ++ numbered Alo._ALO_LABEL_CHOICE_DEPENDENT_VARIABLE
         (alternative_dependent_variable_fields m)
    ++ numbered Alo._ALO_LABEL_INTERCEPT (Py.values (intercepts m))
    ++ numbered Alo._ALO_LABEL_PARAMETER (parameters m).

(** [self.abbreviation] and [self.elongation]. *)
Definition abbreviation (m : ChoiceModel) : gmap string string :=
  Py.dict_zip (full m) (abbreviations m).

Definition elongation (m : ChoiceModel) : gmap string string :=
  Py.dict_zip (abbreviations m) (full m).

(** [AlogitInterface.abbreviate] *)
Definition abbreviate (m : ChoiceModel) (s : string) : string :=
  match abbreviation m !! s with
  | Some token => token
  | None => s
  end.

(** [AlogitInterface.elongate] *)
Definition elongate (m : ChoiceModel) (s : string) : Py.result string :=
  match elongation m !! s with
  | Some name => Py.Ok name
  | None => Py.Raise (Py.KeyError s)
  end.

(** *** The registry seen as a sequence of registrations

    The loops of [_create_abbreviations] register long names role by role.
    [registrations] lists, in registration order, the role, the number
    handed out by [enumerate(..., start=1)] and the long name. *)

Inductive role : Type :=
| ChoiceLabel
| ChoiceColumn
| AvailabilityColumn
| Variable_
| DependentColumn
| Intercept
| Parameter_.

Global Instance role_eq_dec : EqDecision role.
Proof. solve_decision. Defined.

Definition roles : list role :=
  [ChoiceLabel; ChoiceColumn; AvailabilityColumn; Variable_;
   DependentColumn; Intercept; Parameter_].

(** The fixed prefix of a role. *)
Definition label (r : role) : string :=
  match r with
  | ChoiceLabel => Alo._ALO_LABEL_CHOICE
  | ChoiceColumn => Alo._ALO_LABEL_CHOICE_COLUMN
  | AvailabilityColumn => Alo._ALO_LABEL_AVAILABILITY
  | Variable_ => Alo._ALO_LABEL_VARIABLE
  | DependentColumn => Alo._ALO_LABEL_CHOICE_DEPENDENT_VARIABLE
  | Intercept => Alo._ALO_LABEL_INTERCEPT
  | Parameter_ => Alo._ALO_LABEL_PARAMETER
  end.

(** The long names registered under a role, in the order of its loop. *)
Definition names_of (m : ChoiceModel) (r : role) : list string :=
  match r with
  | ChoiceLabel => alternatives m
  | ChoiceColumn => [choice_column m]
  | AvailabilityColumn => Py.values (availability m)
  | Variable_ => all_variables m
  | DependentColumn => alternative_dependent_variable_fields m
  | Intercept => Py.values (intercepts m)
  | Parameter_ => parameters m
  end.

(** The abbreviation the code appends for the [number]-th name of a role:
    the choice column gets the bare label, every other role the label
    followed by the number. *)
Definition token (r : role) (number : nat) : string :=
  match r with
  | ChoiceColumn => label r
  | _ => label r +:+ Py.str number
  end.

Definition registrations (m : ChoiceModel) : list (role * nat * string) :=
  r ← roles;
  zip (pair r <$> seq 1 (length (names_of m r))) (names_of m r).

Definition is_digit (c : ascii) : bool :=
  match Ascii.is_nat c with Some _ => true | None => false end.

Definition reg_name (e : role * nat * string) : string := e.2.
Definition reg_token (e : role * nat * string) : string := token e.1.1 e.1.2.

Definition enum (m : ChoiceModel) (r : role) : list (role * nat * string) :=
  zip (pair r <$> seq 1 (length (names_of m r))) (names_of m r).

(** Splitting an abbreviation at its first digit recovers the label. *)
Fixpoint split_label (s : string) : string * string :=
  match s with
  | "" => ("", "")
  | String c rest =>
      if is_digit c then ("", s)
      else let '(l, d) := split_label rest in (String c l, d)
  end.

Definition dict_of_pairs (l : list (string * string)) : gmap string string :=
  foldl (λ d kv, <[kv.1 := kv.2]> d) ∅ l.

Definition m0 : ChoiceModel := {|
  title := "Simple model";
  alternatives := ["car"; "bus"];
  choice_column := "choice";
  availability := [("car", "car_available"); ("bus", "bus_available")];
  alternative_independent_variables := ["income"];
  alternative_dependent_variables :=
    [("time", [("car", "car_time"); ("bus", "bus_time")])];
  intercepts := [("car", "c_car")];
  parameters := ["p_income"; "p_time"];
  specification :=
    [("car", {| intercept := Some "c_car";
                terms := [{| parameter := "p_income"; variable := "income" |};
                          {| parameter := "p_time"; variable := "time" |}] |});
     ("bus", {| intercept := None;
                terms := [{| parameter := "p_time"; variable := "time" |}] |})];
  data_columns := ["income"; "car_time"; "bus_time"; "car_available";
                   "bus_available"; "choice"]
|}.

(** C7 as stated *)
Definition token_is_prefix_and_index (m : ChoiceModel) : Prop :=
  ∀ name, name ∈ full m →
    ∃ r i, (r, i, name) ∈ registrations m
           ∧ abbreviate m name = label r +:+ Py.str i.

(** A model whose parameters are named after the variables they
    multiply. *)
Definition m_shared : ChoiceModel := {|
  title := "Shared names";
  alternatives := ["car"; "bus"];
  choice_column := "choice";
  availability := [("car", "car_available"); ("bus", "bus_available")];
  alternative_independent_variables := ["income"];
  alternative_dependent_variables := [];
  intercepts := [("car", "c_car")];
  parameters := ["income"];
  specification :=
    [("car", {| intercept := Some "c_car";
                terms := [{| parameter := "income"; variable := "income" |}] |});
     ("bus", {| intercept := None; terms := [] |})];
  data_columns := ["income"; "car_available"; "bus_available"; "choice"]
|}.

(** ** The input-file serializer ([AlogitInterface._create_alo_file]) *)

(** [_alo_record(command, *args)] *)
Definition _alo_record (m : ChoiceModel) (command : string)
    (args : list string) : list string :=
  let string :=
    foldl (λ string arg, string +:+ " " +:+ abbreviate m arg) command args in
  textwrap.wrap string Alo._MAX_LINE_LENGTH.

(** [_array(array, argument)] *)
Definition _array (m : ChoiceModel) (array argument : string) : string :=
  let array := abbreviate m array in
  let argument := abbreviate m argument in
  array +:+ "(" +:+ argument +:+ ")".

(** [_array_record(array, argument)] *)
Definition _array_record (m : ChoiceModel) (array argument : string)
  : string :=
  _array m array argument +:+ " =".

(** [_specify_data_file()] *)
Definition _specify_data_file (data_file : string)
    (column_labels : list string) : list string :=
  let column_labels := Py.join " " column_labels in
  let string := "file (name=" +:+ data_file +:+ ") " +:+ column_labels in
  textwrap.wrap string Alo._MAX_LINE_LENGTH.

(** [_define_alternatives()] *)
Definition _define_alternatives (m : ChoiceModel) : list string :=
  let string :=
    "choice=recode(" +:+ Alo._ALO_LABEL_CHOICE_COLUMN +:+ " "
      +:+ Py.join ", " (abbreviate m <$> alternatives m) +:+ ")" in
  textwrap.wrap string Alo._MAX_LINE_LENGTH.

(** The string the loop of [_utility_string] appends for one term. *)
Definition term_string (m : ChoiceModel) (choice : string) (term : Term)
  : string :=
  if bool_decide
       (variable term ∈ Py.keys (alternative_dependent_variables m))
  then abbreviate m (parameter term) +:+ "*"
         +:+ abbreviate m (variable term) +:+ "("
         +:+ abbreviate m choice +:+ ")"
  else abbreviate m (parameter term) +:+ "*"
         +:+ abbreviate m (variable term).

(** [_utility_string(choice)] *)
Definition _utility_string (m : ChoiceModel) (choice : string)
  : Py.result string :=
  utility ← Py.getitem (specification m) choice;
  let utility_string :=
    match intercept utility with
    | Some intercept => [abbreviate m intercept]
    | None => []
    end in
  let utility_string :=
    foldl (λ utility_string term,
             utility_string ++ [term_string m choice term])
          utility_string (terms utility) in
  mret (Py.join " + " utility_string).

(** [_create_alo_file()]; [data_file] and [column_labels] are the
    attributes of the interface the data-file record is built from. *)
Definition _create_alo_file (m : ChoiceModel) (data_file : string)
    (column_labels : list string) : Py.result (list string) :=
  let alo := [] in
  let alo := alo ++ _alo_record m Alo._ALO_COMMAND_TITLE [title m] in
  let alo := alo ++ _alo_record m Alo._ALO_COMMAND_ESTIMATE [] in
  let alo :=
    alo ++ _alo_record m Alo._ALO_COMMAND_COEFFICIENTS
             (parameters m ++ Py.values (intercepts m)) in
  let alo :=
    alo ++ _alo_record m Alo._ALO_COMMAND_ALTERNATIVES (alternatives m) in
  let alo := alo ++ _specify_data_file data_file column_labels in
  alo ← Py.for_each (alternatives m) alo (λ alo choice,
    column ← Py.getitem (availability m) choice;
    mret (alo ++ _alo_record m (_array_record m "Avail" choice) [column]));
  let alo := alo ++ _define_alternatives m in
  let alo :=
    foldl (λ alo '(variable, mapping),
             let alo :=
               alo ++ _alo_record m Alo._ALO_COMMAND_ARRAY
                        [_array m variable "alts"] in
             foldl (λ alo '(choice, column_label),
                      alo ++ _alo_record m (_array_record m variable choice)
                               [column_label])
                   alo mapping)
          alo (alternative_dependent_variables m) in
  alo ← Py.for_each (alternatives m) alo (λ alo choice,
    utility ← _utility_string m choice;
    mret (alo ++ _alo_record m (_array_record m "Util" choice) [utility]));
  mret alo.

(** *** The record grammar of the input file

    The records of the input file before they are wrapped, written as the
    grammar has them: a command or left-hand side followed by its
    blank-separated arguments. *)

(** [name(argument)] *)
Definition indexed (name argument : string) : string :=
  name +:+ "(" +:+ argument +:+ ")".

(** A utility term: the parameter token, a star, the variable token, and the
    alternative token in parentheses exactly when the variable is
    alternative-dependent. *)
Definition utility_term (m : ChoiceModel) (choice : string) (term : Term)
  : string :=
  abbreviate m (parameter term) +:+ "*"
    +:+ (if bool_decide
              (variable term ∈ Py.keys (alternative_dependent_variables m))
         then indexed (abbreviate m (variable term)) (abbreviate m choice)
         else abbreviate m (variable term)).

(** A utility expression: the intercept token, when there is an intercept,
    then the terms, joined by a plus sign between blanks. *)
Definition utility_expression (m : ChoiceModel) (utility : Utility)
    (choice : string) : string :=
  Py.join " + "
    (option_list (abbreviate m <$> intercept utility)
       ++ (utility_term m choice <$> terms utility)).

Definition title_record (m : ChoiceModel) : string :=
  Py.join " " ["$title "; abbreviate m (title m)].

Definition coeff_record (m : ChoiceModel) : string :=
  Py.join " "
    ("$coeff" :: (abbreviate m <$> parameters m ++ Py.values (intercepts m))).

Definition nest_record (m : ChoiceModel) : string :=
  Py.join " " ("$nest root()" :: (abbreviate m <$> alternatives m)).

Definition file_record (data_file : string) (column_labels : list string)
  : string :=
  "file (name=" +:+ data_file +:+ ") " +:+ Py.join " " column_labels.

Definition avail_record (m : ChoiceModel) (choice column : string) : string :=
  Py.join " "
    [indexed (abbreviate m "Avail") (abbreviate m choice) +:+ " =";
     abbreviate m column].

Definition recode_record (m : ChoiceModel) : string :=
  "choice=recode(alt " +:+ Py.join ", " (abbreviate m <$> alternatives m)
    +:+ ")".

Definition array_record (m : ChoiceModel) (variable : string) : string :=
  Py.join " "
    ["$array";
     abbreviate m (indexed (abbreviate m variable) (abbreviate m "alts"))].

Definition column_record (m : ChoiceModel) (variable : string)
    (entry : string * string) : string :=
  Py.join " "
    [indexed (abbreviate m variable) (abbreviate m entry.1) +:+ " =";
     abbreviate m entry.2].

Definition util_record (m : ChoiceModel) (choice : string)
    (utility : Utility) : string :=
  Py.join " "
    [indexed (abbreviate m "Util") (abbreviate m choice) +:+ " =";
     abbreviate m (utility_expression m utility choice)].

(** The records of the input file, in the order the code writes them. *)
Definition records (m : ChoiceModel) (data_file : string)
    (column_labels : list string) : Py.result (list string) :=
  avail ← mapM (λ choice,
                  avail_record m choice <$> Py.getitem (availability m) choice)
             (alternatives m);
  util ← mapM (λ choice,
                 util_record m choice <$> Py.getitem (specification m) choice)
            (alternatives m);
  mret ([title_record m; "$estimate"; coeff_record m; nest_record m;
         file_record data_file column_labels]
          ++ avail
          ++ [recode_record m]
          ++ (alternative_dependent_variables m ≫= λ '(variable, mapping),
                array_record m variable
                  :: (column_record m variable <$> mapping))
          ++ util).

(** The records as C1 states them: the alternative tokens inside the
    parentheses of the nest record, the array records before the recode
    record, one column record per alternative. *)
Definition stated_records (m : ChoiceModel) (data_file : string)
    (column_labels : list string) : Py.result (list string) :=
  avail ← mapM (λ choice,
                  avail_record m choice <$> Py.getitem (availability m) choice)
             (alternatives m);
  columns ← mapM (λ '(variable, mapping),
                    entries ← mapM (λ choice,
                                      pair choice
                                        <$> Py.getitem mapping choice)
                                 (alternatives m);
                    mret (array_record m variable
                            :: (column_record m variable <$> entries)))
               (alternative_dependent_variables m);
  util ← mapM (λ choice,
                 util_record m choice <$> Py.getitem (specification m) choice)
            (alternatives m);
  mret ([Py.join " " ["$title"; abbreviate m (title m)];
         "$estimate";
         coeff_record m;
         "$nest root(" +:+ Py.join " " (abbreviate m <$> alternatives m)
           +:+ ")";
         file_record data_file column_labels]
          ++ avail
          ++ mjoin columns
          ++ [recode_record m]
          ++ util).

(** The lines of the file: every record wrapped at the line width. *)
Definition wrapped (records : list string) : list string :=
  records ≫= λ record, textwrap.wrap record Alo._MAX_LINE_LENGTH.

(** ** Classes and the validation of the model argument
    ([Interface._ensure_valid_model]) *)

(** The classes an object handed to an interface may have: the two model
    classes, a class derived from another one, or an unrelated class. *)
Inductive pyclass : Type :=
| ChoiceModel_
| MultinomialLogit_
| Derived (name : string) (base : pyclass)
| Unrelated (name : string).

Global Instance pyclass_eq_dec : EqDecision pyclass.
Proof. solve_decision. Defined.

(** The classes a class inherits from, itself included;
    [MultinomialLogit] derives from [ChoiceModel]. *)
Fixpoint mro (c : pyclass) : list pyclass :=
  match c with
  | ChoiceModel_ => [ChoiceModel_]
  | MultinomialLogit_ => [MultinomialLogit_; ChoiceModel_]
  | Derived _ base => c :: mro base
  | Unrelated _ => [c]
  end.

Definition issubclass (c d : pyclass) : bool := bool_decide (d ∈ mro c).

(** An object: its class, [type(obj)], and the attributes a model has. *)
Record pyobject : Type := {
  type_of : pyclass;
  attributes : ChoiceModel
}.

Definition isinstance (obj : pyobject) (c : pyclass) : bool :=
  issubclass (type_of obj) c.

(** The interface classes of the repository that are under [src/]. *)
Inductive interface_class : Type :=
| Interface_
| AlogitInterface_.

(** The class attribute [_valid_models]. *)
Definition _valid_models (cls : interface_class) : list pyclass :=
  match cls with
  | Interface_ => [ChoiceModel_]
  | AlogitInterface_ => [MultinomialLogit_]
  end.

(** [Interface._ensure_valid_model(cls, model)] *)
Definition _ensure_valid_model (cls : interface_class) (model : pyobject)
  : Py.result unit :=
  if bool_decide (type_of model ∉ _valid_models cls)
  then Py.Raise Py.TypeError
  else mret ().

(** [Interface.__init__(self, model)] on an instance of class [cls]: the
    attribute [self.model] it sets. *)
Definition Interface__init__ (cls : interface_class) (model : pyobject)
  : Py.result pyobject :=
  _ ← _ensure_valid_model cls model;
  mret model.

(** ** The ALOGIT interface object *)

(** What [subprocess.run(..., capture_output=True)] returns. *)
Record CompletedProcess : Type := {
  returncode : Z;
  stdout : string;
  stderr : string
}.

(** The surroundings of the program: the file system and the solver. *)
Record World : Type := {
  (** [os.path.abspath] *)
  abspath : string → string;
  (** writing the lines of the input file to a path *)
  write_alo : string → list string → Py.result unit;
  (** writing the data table to a path *)
  write_data : string → Py.result unit;
  (** [subprocess.run([alogit_path, alo_path], capture_output=True)] *)
  run : list string → Py.result CompletedProcess;
  (** the lines of the [.LOG] file next to the given input file *)
  read_log : string → Py.result (list string)
}.

(** The keyword arguments of [AlogitInterface.__init__]. *)
Record kwargs : Type := {
  kw_alogit_path : option string;
  kw_data_file : option string;
  kw_alo_file : option string
}.

Definition FINAL : string := "Final value of Log Likelihood".
Definition INITIAL : string := "Initial Log Likelihood".
Definition HEADER : string := "Coefficient   Estimate   Std. Error 't' ratio".
Definition TIME : string := "Estimation time".

Section Estimation.

(** Python floats and the conversion [float(s)] of a string, which fails
    with [ValueError]. *)
Context {F : Type} (float : string → option F).

Definition float_of (s : string) : Py.result F :=
  match float s with
  | Some x => Py.Ok x
  | None => Py.Raise Py.ValueError
  end.

(** The attributes holding estimation results; [None] is an attribute
    that has not been set. *)
Record Estimates : Type := {
  _parameters : option (gmap string F);
  _errors : option (gmap string F);
  _t_values : option (gmap string F);
  _final_log_likelihood : option F;
  _null_log_likelihood : option F;
  _estimation_time : option F
}.

Definition no_estimates : Estimates :=
  {| _parameters := None; _errors := None; _t_values := None;
     _final_log_likelihood := None; _null_log_likelihood := None;
     _estimation_time := None |}.

Record AlogitInterface : Type := {
  model : pyobject;
  alogit_path : string;
  data_file : string;
  alo_file : string;
  column_labels : list string;
  alo : list string;
  _estimated : bool;
  process : option CompletedProcess;
  estimates : Estimates
}.

(** [AlogitInterface.__init__(self, model, **kwargs)].

    Modelled from the spec: the code that initialises the estimated flag
    is missing; an interface starts out unestimated. *)
Definition AlogitInterface__init__ (w : World) (model : pyobject)
    (kw : kwargs) : Py.result AlogitInterface :=
  model ← Interface__init__ AlogitInterface_ model;
  let m := attributes model in
  alogit_path ←
    match kw_alogit_path kw with
    | Some path => Py.Ok (abspath w path)
    | None => Py.Raise (Py.KeyError "alogit_path")
    end;
  let prefix := Py.before_blank (title m) in
  let data_file :=
    match kw_data_file kw with
    | Some path => path
    | None => prefix +:+ ".csv"
    end in
  let alo_file :=
    match kw_alo_file kw with
    | Some path => path
    | None => prefix +:+ ".alo"
    end in
  let column_labels := abbreviate m <$> data_columns m in
  alo ← _create_alo_file m data_file column_labels;
  mret {| model := model;
          alogit_path := alogit_path;
          data_file := data_file;
          alo_file := alo_file;
          column_labels := column_labels;
          alo := alo;
          _estimated := false;
          process := None;
          estimates := no_estimates |}.

(** *** The log parser ([AlogitInterface._parse_output_file]) *)

Definition set_parameter (est : Estimates) (name : string) (x : F)
  : Estimates :=
  {| _parameters := Some (<[name := x]> (default ∅ (_parameters est)));
     _errors := _errors est;
     _t_values := _t_values est;
     _final_log_likelihood := _final_log_likelihood est;
     _null_log_likelihood := _null_log_likelihood est;
     _estimation_time := _estimation_time est |}.

Definition set_error (est : Estimates) (name : string) (x : F)
  : Estimates :=
  {| _parameters := _parameters est;
     _errors := Some (<[name := x]> (default ∅ (_errors est)));
     _t_values := _t_values est;
     _final_log_likelihood := _final_log_likelihood est;
     _null_log_likelihood := _null_log_likelihood est;
     _estimation_time := _estimation_time est |}.

Definition set_t_value (est : Estimates) (name : string) (x : F)
  : Estimates :=
  {| _parameters := _parameters est;
     _errors := _errors est;
     _t_values := Some (<[name := x]> (default ∅ (_t_values est)));
     _final_log_likelihood := _final_log_likelihood est;
     _null_log_likelihood := _null_log_likelihood est;
     _estimation_time := _estimation_time est |}.

Definition set_final_log_likelihood (est : Estimates) (x : F) : Estimates :=
  {| _parameters := _parameters est;
     _errors := _errors est;
     _t_values := _t_values est;
     _final_log_likelihood := Some x;
     _null_log_likelihood := _null_log_likelihood est;
     _estimation_time := _estimation_time est |}.

Definition set_null_log_likelihood (est : Estimates) (x : F) : Estimates :=
  {| _parameters := _parameters est;
     _errors := _errors est;
     _t_values := _t_values est;
     _final_log_likelihood := _final_log_likelihood est;
     _null_log_likelihood := Some x;
     _estimation_time := _estimation_time est |}.

Definition set_estimation_time (est : Estimates) (x : F) : Estimates :=
  {| _parameters := _parameters est;
     _errors := _errors est;
     _t_values := _t_values est;
     _final_log_likelihood := _final_log_likelihood est;
     _null_log_likelihood := _null_log_likelihood est;
     _estimation_time := Some x |}.

(** The three empty tables set before the log is opened. *)
Definition reset_tables (est : Estimates) : Estimates :=
  {| _parameters := Some ∅;
     _errors := Some ∅;
     _t_values := Some ∅;
     _final_log_likelihood := _final_log_likelihood est;
     _null_log_likelihood := _null_log_likelihood est;
     _estimation_time := _estimation_time est |}.

(** An assignment [self.attribute = float(field)]: the right-hand side is
    evaluated first, and nothing is assigned when it raises. *)
Definition assign (set : Estimates → F → Estimates) (est : Estimates)
    (field : Py.result string) : Estimates * Py.result unit :=
  match field ≫= float_of with
  | Py.Raise e => (est, Py.Raise e)
  | Py.Ok x => (set est x, Py.Ok ())
  end.

(** The body of the inner loop on the line [outfile.readline()] returned:
    the attributes as the statements leave them, and the exception that
    interrupted them, if any. *)
Definition parse_row (m : ChoiceModel) (est : Estimates) (line : string)
  : Estimates * Py.result unit :=
  let result_line := Py.split line in
  match Py.index result_line 0 ≫= elongate m with
  | Py.Raise e => (est, Py.Raise e)
  | Py.Ok parameter =>
      match assign (λ est, set_parameter est parameter) est
              (Py.index result_line 1) with
      | (est, Py.Ok _) =>
          match assign (λ est, set_error est parameter) est
                  (Py.index result_line 2) with
          | (est, Py.Ok _) =>
              assign (λ est, set_t_value est parameter) est
                (Py.index result_line 3)
          | failed => failed
          end
      | failed => failed
      end
  end.

(** The two loops over the lines of the log.  [rows] is the number of
    iterations the inner loop still has to make: while it is positive the
    next line is read by [readline]; when it is zero the next line goes to
    the [if]/[elif] chain of the outer loop.  At the end of the file
    [readline] returns the empty string, on which the row raises
    [IndexError]. *)
Fixpoint parse_lines (m : ChoiceModel) (rows : nat) (est : Estimates)
    (lines : list string) : Estimates * Py.result unit :=
  let continue rows rest (step : Estimates * Py.result unit) :=
    match step with
    | (est, Py.Ok _) => parse_lines m rows est rest
    | failed => failed
    end in
  match rows, lines with
  | 0, [] => (est, Py.Ok ())
  | 0, line :: rest =>
      if Py.contains FINAL line then
        continue 0 rest
          (assign set_final_log_likelihood est
             (Py.last_item (Py.split line)))
      else if Py.contains INITIAL line then
        continue 0 rest
          (assign set_null_log_likelihood est
             (Py.last_item (Py.split line)))
      else if Py.contains HEADER line then
        parse_lines m (number_of_parameters m) est rest
      else if Py.contains TIME line then
        continue 0 rest
          (assign set_estimation_time est
             (Py.second_to_last (Py.split line)))
      else parse_lines m 0 est rest
  | S rows, [] => parse_row m est ""
  | S rows, line :: rest => continue rows rest (parse_row m est line)
  end.

Definition with_estimates (self : AlogitInterface) (est : Estimates)
  : AlogitInterface :=
  {| model := model self; alogit_path := alogit_path self;
     data_file := data_file self; alo_file := alo_file self;
     column_labels := column_labels self; alo := alo self;
     _estimated := _estimated self; process := process self;
     estimates := est |}.

(** [_parse_output_file()] *)
Definition _parse_output_file (w : World) (self : AlogitInterface)
  : AlogitInterface * Py.result unit :=
  let est := reset_tables (estimates self) in
  match read_log w (alo_file self) with
  | Py.Raise e => (with_estimates self est, Py.Raise e)
  | Py.Ok lines =>
      let '(est, outcome) :=
        parse_lines (attributes (model self)) 0 est lines in
      (with_estimates self est, outcome)
  end.

Definition set_estimated (self : AlogitInterface) : AlogitInterface :=
  {| model := model self; alogit_path := alogit_path self;
     data_file := data_file self; alo_file := alo_file self;
     column_labels := column_labels self; alo := alo self;
     _estimated := true; process := process self;
     estimates := estimates self |}.

Definition set_process (self : AlogitInterface) (p : CompletedProcess)
  : AlogitInterface :=
  {| model := model self; alogit_path := alogit_path self;
     data_file := data_file self; alo_file := alo_file self;
     column_labels := column_labels self; alo := alo self;
     _estimated := _estimated self; process := Some p;
     estimates := estimates self |}.

(** [estimate()]: the object after the call, and how the call ended. *)
Definition estimate (w : World) (self : AlogitInterface)
  : AlogitInterface * Py.result unit :=
  match write_alo w (alo_file self) (alo self) with
  | Py.Raise e => (self, Py.Raise e)
  | Py.Ok _ =>
  match write_data w (data_file self) with
  | Py.Raise e => (self, Py.Raise e)
  | Py.Ok _ =>
  let alo_path := abspath w (alo_file self) in
  match run w [alogit_path self; alo_path] with
  | Py.Raise e => (self, Py.Raise e)
  | Py.Ok process =>
      if bool_decide (returncode process = 0%Z) then
        let self := set_estimated self in
        match _parse_output_file w self with
        | (self, Py.Ok _) => (set_process self process, Py.Ok ())
        | failed => failed
        end
      else (set_process self process, Py.Ok ())
  end end end.

(** *** The guarded accessors *)

(** Modelled from the spec: the decorator [requires_estimation] is missing;
    a guarded method fails with the not-estimated error unless a
    successful estimation has set the flag. *)
Definition requires_estimation {A} (method : AlogitInterface → Py.result A)
    (self : AlogitInterface) : Py.result A :=
  if _estimated self then method self else Py.Raise Py.NotEstimated.

Definition attribute {A} (value : option A) : Py.result A :=
  match value with
  | Some x => Py.Ok x
  | None => Py.Raise Py.AttributeError
  end.

(** [display_results()]: the lines it prints. *)
Definition display_results : AlogitInterface → Py.result (list string) :=
  requires_estimation (λ self,
    process ← attribute (process self);
    if bool_decide (returncode process ≠ 0%Z)
    then mret ["ALOGIT returned non-zero return code"; stderr process]
    else mret [stdout process]).

Definition null_log_likelihood : AlogitInterface → Py.result F :=
  requires_estimation
    (λ self, attribute (_null_log_likelihood (estimates self))).

Definition final_log_likelihood : AlogitInterface → Py.result F :=
  requires_estimation
    (λ self, attribute (_final_log_likelihood (estimates self))).

(** [parameters()]; the model has an attribute of the same name. *)
Definition parameters_ : AlogitInterface → Py.result (gmap string F) :=
  requires_estimation (λ self, attribute (_parameters (estimates self))).

Definition standard_errors : AlogitInterface → Py.result (gmap string F) :=
  requires_estimation (λ self, attribute (_errors (estimates self))).

Definition t_values : AlogitInterface → Py.result (gmap string F) :=
  requires_estimation (λ self, attribute (_t_values (estimates self))).

Definition estimation_time : AlogitInterface → Py.result F :=
  requires_estimation
    (λ self, attribute (_estimation_time (estimates self))).

End Estimation.

(** ** [synthetic_model] *)

Record MultinomialLogit : Type := {
  ml_title : string;
  ml_alternatives : list string;
  ml_choice_column : string;
  ml_availability : Py.dict string;
  ml_alternative_independent_variables : list string;
  ml_alternative_dependent_variables : Py.dict (Py.dict string);
  ml_intercepts : Py.dict string;
  ml_parameters : list string;
  ml_specification : Py.dict string
}.

Definition synthetic_model (title : string)
    (number_of_alternatives number_of_variables : nat)
  : Py.result MultinomialLogit :=
  let alternatives :=
    (λ number, "alternative" +:+ Py.str number)
      <$> seq 1 number_of_alternatives in
  let availability :=
    Py.dict_of_items
      ((λ '(number, alternative),
          (alternative, "availability" +:+ Py.str (number + 1)))
         <$> Py.enumerate alternatives) in
  let variables :=
    foldl (λ variables number,
             Py.setitem variables ("variable" +:+ Py.str number)
               (Py.dict_of_items
                  ((λ alternative,
                      (alternative,
                       alternative +:+ "_variable" +:+ Py.str number))
                     <$> alternatives)))
          [] (seq 1 number_of_variables) in
  let intercepts :=
    Py.dict_of_items
      ((λ '(number, alternative),
          (alternative, "c" +:+ Py.str (number + 1)))
         <$> Py.enumerate (Py.all_but_last alternatives)) in
  let parameters :=
    (λ number, "parameter" +:+ Py.str number)
      <$> seq 1 number_of_variables in
  let all_variables := Py.keys variables in
  let products :=
    (λ pair : string * string, Py.join "*" [pair.1; pair.2])
      <$> zip parameters all_variables in
  let linear_combination := Py.join " + " products in
  specification ←
    foldl (λ acc alternative,
             specification ← acc;
             intercept ← Py.getitem intercepts alternative;
             mret (Py.setitem specification alternative
                     (Py.join " + " [intercept; linear_combination])))
          (mret []) (Py.all_but_last alternatives);
  last_alternative ← Py.last_item alternatives;
  let specification :=
    Py.setitem specification last_alternative linear_combination in
  mret {| ml_title := title;
          ml_alternatives := alternatives;
          ml_choice_column := "choice";
          ml_availability := availability;
          ml_alternative_independent_variables := [];
          ml_alternative_dependent_variables := variables;
          ml_intercepts := intercepts;
          ml_parameters := parameters;
          ml_specification := specification |}.


(** The names [synthetic_model] generates. *)
Definition alternative_name (k : nat) : string := "alternative" +:+ Py.str k.
Definition availability_name (k : nat) : string := "availability" +:+ Py.str k.
Definition variable_name (i : nat) : string := "variable" +:+ Py.str i.
Definition parameter_name (i : nat) : string := "parameter" +:+ Py.str i.
Definition intercept_name (k : nat) : string := "c" +:+ Py.str k.
Definition column_name (k i : nat) : string :=
  alternative_name k +:+ "_variable" +:+ Py.str i.

(** The utility the spec describes for alternative [k] of [A], with [V]
    variables: the intercept, when there is one, then parameter i times
    variable i for every i, summed. *)
Definition linear_utility (A V k : nat) : string :=
  Py.join " + "
    ((if decide (k < A) then [intercept_name k] else [])
       ++ ((λ i, parameter_name i +:+ "*" +:+ variable_name i) <$> seq 1 V)).

Fixpoint all_digits (s : string) : bool :=
  match s with
  | "" => true
  | String c rest => is_digit c && all_digits rest
  end.

(** *** What the parser extracts, stated on the log

    The branch of the [if]/[elif] chain a line takes: the first of the four
    tests that succeeds decides. *)
Inductive branch : Type :=
| Final
| Initial
| Header
| Time
| Ignored.

Global Instance branch_eq_dec : EqDecision branch.
Proof. solve_decision. Defined.

Definition branch_of (line : string) : branch :=
  if Py.contains FINAL line then Final
  else if Py.contains INITIAL line then Initial
  else if Py.contains HEADER line then Header
  else if Py.contains TIME line then Time
  else Ignored.

(** The lines of a log that reach the [if]/[elif] chain, when [K] lines
    are read after each header line and [rows] lines are still to be read
    for the current header. *)
Fixpoint scanned_lines (K rows : nat) (lines : list string) : list string :=
  match lines with
  | [] => []
  | line :: rest =>
      match rows with
      | S rows => scanned_lines K rows rest
      | 0 =>
          line :: scanned_lines K
                    (if decide (branch_of line = Header) then K else 0) rest
      end
  end.

(** The lines of a log that are read as coefficient rows. *)
Fixpoint coefficient_rows (K rows : nat) (lines : list string)
  : list string :=
  match lines with
  | [] => []
  | line :: rest =>
      match rows with
      | S rows => line :: coefficient_rows K rows rest
      | 0 =>
          coefficient_rows K
            (if decide (branch_of line = Header) then K else 0) rest
      end
  end.

Section Extraction.

Context {F : Type} (float : string → option F).

(** The number [float] makes of the field [pick] selects on a line. *)
Definition field_value (pick : list string → Py.result string)
    (line : string) : option F :=
  match pick (Py.split line) ≫= float_of float with
  | Py.Ok x => Some x
  | Py.Raise _ => None
  end.

(** The value captured from the last scanned line that takes branch [b];
    the old value when there is no such line. *)
Definition captured (b : branch) (pick : list string → Py.result string)
    (old : option F) (scanned : list string) : option F :=
  match last (filter (λ line, branch_of line = b) scanned) with
  | Some line => field_value pick line
  | None => old
  end.

(** The long name and the [i]-th field of a coefficient row. *)
Definition row_entry (m : ChoiceModel) (i : nat) (line : string)
  : option (string * F) :=
  match Py.index (Py.split line) 0 ≫= elongate m,
        field_value (λ fields, Py.index fields i) line with
  | Py.Ok name, Some x => Some (name, x)
  | _, _ => None
  end.

(** The table of the [i]-th fields of the coefficient rows, a later row
    replacing an earlier one of the same name. *)
Definition row_table (m : ChoiceModel) (i : nat) (table : gmap string F)
    (rows : list string) : gmap string F :=
  foldl (λ table line,
           match row_entry m i line with
           | Some (name, x) => <[name := x]> table
           | None => table
           end)
        table rows.

End Extraction.

(** ** Examples *)

(** A conversion standing in for [float] when an example is run: a plain
    decimal literal (an optional sign, digits, at most one point) is kept as
    written, any other string is rejected. *)
Fixpoint decimal_body (digits points : nat) (s : string) : bool :=
  match s with
  | "" => bool_decide (0 < digits ∧ points ≤ 1)
  | String c rest =>
      if is_digit c then decimal_body (S digits) points rest
      else if Ascii.eqb c "."%char then decimal_body digits (S points) rest
      else false
  end.

Definition decimal (s : string) : option string :=
  let body :=
    match s with
    | String c rest =>
        if Ascii.eqb c "-"%char || Ascii.eqb c "+"%char then rest else s
    | "" => s
    end in
  if decimal_body 0 0 body then Some s else None.

(** A file system that accepts every write, a solver with a fixed outcome
    and a fixed log. *)
Definition world (outcome : CompletedProcess) (log : list string) : World :=
  {| abspath := λ path, "/work/" +:+ path;
     write_alo := λ _ _, Py.Ok ();
     write_data := λ _, Py.Ok ();
     run := λ _, Py.Ok outcome;
     read_log := λ _, Py.Ok log |}.

Definition succeeded : CompletedProcess :=
  {| returncode := 0; stdout := "Convergence achieved"; stderr := "" |}.

Definition failed : CompletedProcess :=
  {| returncode := 1; stdout := ""; stderr := "Licence not found" |}.

(** The interface built for [m0]. *)
Definition model0 : pyobject :=
  {| type_of := MultinomialLogit_; attributes := m0 |}.

Definition kwargs0 : kwargs :=
  {| kw_alogit_path := Some "alogit.exe";
     kw_data_file := None;
     kw_alo_file := None |}.

Definition interface0 : AlogitInterface (F := string) :=
  {| model := model0;
     alogit_path := "/work/alogit.exe";
     data_file := "Simple.csv";
     alo_file := "Simple.alo";
     column_labels := ["v1"; "cv1"; "cv2"; "av1"; "av2"; "alt"];
     alo :=
       ["$title  Simple model"; "$estimate"; "$coeff prm1 prm2 c1";
        "$nest root() ch1 ch2";
        "file (name=Simple.csv) v1 cv1 cv2 av1 av2 alt";
        "Avail(ch1) = av1"; "Avail(ch2) = av2";
        "choice=recode(alt ch1, ch2)"; "$array v2(alts)"; "v2(ch1) = cv1";
        "v2(ch2) = cv2"; "Util(ch1) = c1 + prm1*v1 + prm2*v2(ch1)";
        "Util(ch2) = prm2*v2(ch2)"];
     _estimated := false;
     process := None;
     estimates := no_estimates |}.

(** An instance of a user-defined subclass of [MultinomialLogit]. *)
Definition derived_model : pyobject :=
  {| type_of := Derived "NestedLogit" MultinomialLogit_; attributes := m0 |}.

(** A complete log for [m0], which has three coefficients. *)
Definition full_log : list string :=
  ["ALOGIT version 4";
   "Initial Log Likelihood          -50.0";
   "Coefficient   Estimate   Std. Error 't' ratio";
   "prm1 0.50 0.10 5.0";
   "prm2 -0.25 0.05 -5.0";
   "c1 1.20 0.30 4.0";
   "Final value of Log Likelihood   -40.0";
   "Estimation time 3.2 seconds"].

(** A log that ends after the first of the three coefficient rows. *)
Definition short_log : list string :=
  ["Initial Log Likelihood          -50.0";
   "Coefficient   Estimate   Std. Error 't' ratio";
   "prm1 0.50 0.10 5.0"].

(** A log whose second coefficient row starts with a token that was never
    handed out. *)
Definition unknown_token_log : list string :=
  ["Coefficient   Estimate   Std. Error 't' ratio";
   "prm1 0.50 0.10 5.0";
   "prm9 -0.25 0.05 -5.0";
   "c1 1.20 0.30 4.0"].

(** A log with a line that holds two of the trigger texts. *)
Definition overlapping_log : list string :=
  ["Initial Log Likelihood and Final value of Log Likelihood -40.0"].

(** ** Outcomes of the serializer and of the constructor *)

(** The first of [keys] that the dict [d] does not hold. *)
Fixpoint first_missing {V} (d : Py.dict V) (keys : list string)
  : option string :=
  match keys with
  | [] => None
  | key :: rest =>
      match Py.get d key with
      | Some _ => first_missing d rest
      | None => Some key
      end
  end.

(** Whether a string holds a blank. *)
Fixpoint has_blank (s : string) : bool :=
  match s with
  | "" => false
  | String c rest => Ascii.eqb c " "%char || has_blank rest
  end.

(** ** What wrapping keeps *)

(** The characters of a string that are not whitespace, in order. *)
Fixpoint visible (s : string) : string :=
  match s with
  | "" => ""
  | String c rest =>
      if Py.isspace c then visible rest else String c (visible rest)
  end.

(** Whether every character of a string satisfies [p]. *)
Fixpoint every (p : ascii → bool) (s : string) : bool :=
  match s with
  | "" => true
  | String c rest => p c && every p rest
  end.

(** A character that is not whitespace, or is a blank. *)
Definition blank_or_visible (c : ascii) : bool :=
  negb (textwrap._whitespace c) || Ascii.eqb c " "%char.

(** A chunk of [_split] is a run of whitespace or holds none. *)
Definition uniform (chunk : string) : Prop :=
  every textwrap._whitespace chunk = true
  ∨ every (λ c, negb (textwrap._whitespace c)) chunk = true.

(** The sum of the lengths of the chunks of a line. *)
Definition total (chunks : list string) : nat :=
  foldr (λ chunk n, String.length chunk + n) 0 chunks.

(** The first piece of [matches] continues the match in progress. *)
Definition head_ok (now : textwrap.matching) (piece : string) : Prop :=
  match now with
  | textwrap.Nothing => piece = ""
  | textwrap.Whitespace => every textwrap._whitespace piece = true
  | _ => every (λ c, negb (textwrap._whitespace c)) piece = true
  end.


(** The chunks of one line of the result: they are chunks of the text, and
    they fit in the width unless the line is a single chunk that is longer
    and not blank. *)
Definition group_ok (width : nat) (chunks group : list string) : Prop :=
  group ≠ []
  ∧ group ⊆ chunks
  ∧ (total group ≤ width
     ∨ ∃ chunk, group = [chunk]
                ∧ width < String.length chunk
                ∧ textwrap.strip_is_empty chunk = false).

(** Whether the last character of a string is no whitespace. *)
Fixpoint ends_visible (s : string) : bool :=
  match s with
  | "" => false
  | String c "" => negb (Py.isspace c)
  | String _ rest => ends_visible rest
  end.

(** ** Writing the input file ([AlogitInterface._write_alo_file]) *)

Definition newline : ascii := ascii_of_nat 10.

(** The text [_write_alo_file] writes: every line followed by a newline. *)
Definition _write_alo_file (alo : list string) : string :=
  Py.concat ((λ line, line +:+ String newline "") <$> alo).

(** The pieces of a text between newlines, as a reader of the file finds
    them; the last piece is what follows the last newline. *)
Fixpoint read_lines (text : string) : list string :=
  match text with
  | "" => [""]
  | String c rest =>
      if Ascii.eqb c newline then "" :: read_lines rest
      else Py.cons_head c (read_lines rest)
  end.

(** ** Where a text is broken *)












(** * Properties *)

(** ** Strings *)

Lemma app_cons_str c (s t : string) : String c s +:+ t = String c (s +:+ t).
Proof. reflexivity. Qed.

Lemma app_nil_l_str (t : string) : "" +:+ t = t.
Proof. reflexivity. Qed.

Lemma app_length_str (s t : string) :
  String.length (s +:+ t) = String.length s + String.length t.
Proof.
  induction s as [|c s IH]; [done|].
  rewrite app_cons_str. simpl. by rewrite IH.
Qed.

Lemma app_assoc_str (s t u : string) : (s +:+ t) +:+ u = s +:+ t +:+ u.
Proof.
  induction s as [|c s IH]; [done|]. rewrite !app_cons_str. by rewrite IH.
Qed.

Lemma app_nil_r_str (s : string) : s +:+ "" = s.
Proof. induction s as [|c s IH]; [done|]. rewrite app_cons_str. by rewrite IH. Qed.

(** ** [str] of a number *)

Lemma str_inj n n' : Py.str n = Py.str n' → n = n'.
Proof.
  unfold Py.str. intros H. apply Unsigned.to_uint_inj.
  apply (f_equal NilEmpty.uint_of_string) in H.
  rewrite !NilEmpty.usu in H. congruence.
Qed.

Lemma to_uint_nonnil n : Nat.to_uint n ≠ Decimal.Nil.
Proof.
  rewrite <- (Unsigned.of_to n) at 1. rewrite Unsigned.to_of.
  apply unorm_nonnil.
Qed.

Lemma str_head_digit n : ∃ c s, Py.str n = String c s ∧ is_digit c = true.
Proof.
  unfold Py.str. pose proof (to_uint_nonnil n) as H.
  destruct (Nat.to_uint n); [done|..]; simpl; eauto.
Qed.

Lemma string_of_uint_length d :
  String.length (NilEmpty.string_of_uint d) = Decimal.nb_digits d.
Proof. induction d; simpl; congruence. Qed.

Lemma of_uint_acc_lower d acc :
  acc * 10 ^ Decimal.nb_digits d ≤ Nat.of_uint_acc d acc.
Proof.
  revert acc. induction d as [|d IH|d IH|d IH|d IH|d IH|d IH|d IH|d IH|d IH|d IH];
    intros acc; simpl Nat.of_uint_acc; simpl Decimal.nb_digits.
  { rewrite Nat.pow_0_r. lia. }
  all: rewrite Nat.pow_succ_r'; (etrans; [|apply IH]);
    rewrite Nat.tail_mul_spec; nia.
Qed.

Lemma str_length_bound n k : 0 < k → n < 10 ^ k → String.length (Py.str n) ≤ k.
Proof.
  intros Hk Hn. unfold Py.str. rewrite string_of_uint_length.
  destruct (decide (Decimal.nb_digits (Nat.to_uint n) ≤ k)) as [|Hgt]; [done|].
  exfalso.
  assert (Hnorm : Decimal.unorm (Nat.to_uint n) = Nat.to_uint n).
  { rewrite <- Unsigned.to_of. by rewrite Unsigned.of_to. }
  pose proof (Unsigned.of_to n) as Hof.
  destruct (Nat.to_uint n) as [|d|d|d|d|d|d|d|d|d|d] eqn:E;
    simpl in Hgt; try lia.
  { (* leading zero: the normal form is the single digit 0 *)
    unfold Decimal.unorm in Hnorm. simpl Decimal.nzhead in Hnorm.
    destruct (Decimal.nzhead d) eqn:Ez; try congruence.
    all: injection Hnorm as <-; simpl in Hgt; try lia.
    pose proof (nb_digits_nzhead u) as Hle.
    rewrite Ez in Hle. simpl in Hle. lia. }
  all: unfold Nat.of_uint in Hof; simpl in Hof;
    pose proof (of_uint_acc_lower d) as Hlow;
    match type of Hof with Nat.of_uint_acc _ ?a = _ => specialize (Hlow a) end;
    assert (10 ^ k ≤ 10 ^ Decimal.nb_digits d) by (apply Nat.pow_le_mono_r; lia);
    rewrite ?Nat.tail_mul_spec in *; nia.
Qed.

(** ** The registry *)

Lemma enum_names r (ns : list string) :
  reg_name <$> zip (pair r <$> seq 1 (length ns)) ns = ns.
Proof.
  unfold reg_name. apply snd_zip. by rewrite length_fmap, length_seq.
Qed.

Lemma enum_tokens r (ns : list string) :
  reg_token <$> zip (pair r <$> seq 1 (length ns)) ns
  = token r <$> seq 1 (length ns).
Proof.
  transitivity ((λ p : role * nat, token p.1 p.2)
                  <$> (zip (pair r <$> seq 1 (length ns)) ns).*1).
  { by rewrite <- list_fmap_compose. }
  rewrite fst_zip by (by rewrite length_fmap, length_seq).
  by rewrite <- list_fmap_compose.
Qed.

Lemma registrations_unfold m :
  registrations m
  = enum m ChoiceLabel ++ enum m ChoiceColumn ++ enum m AvailabilityColumn
      ++ enum m Variable_ ++ enum m DependentColumn ++ enum m Intercept
      ++ enum m Parameter_.
Proof.
  unfold registrations, roles. rewrite !bind_cons. unfold enum.
  change ([] ≫= _) with (@nil (role * nat * string)).
  by rewrite app_nil_r.
Qed.

Lemma full_registrations m : full m = reg_name <$> registrations m.
Proof.
  rewrite registrations_unfold, !fmap_app. unfold enum.
  rewrite !enum_names. reflexivity.
Qed.

Lemma abbreviations_registrations m :
  abbreviations m = reg_token <$> registrations m.
Proof.
  rewrite registrations_unfold, !fmap_app. unfold enum.
  rewrite !enum_tokens. reflexivity.
Qed.

Lemma registrations_length m :
  length (full m) = length (abbreviations m).
Proof.
  by rewrite full_registrations, abbreviations_registrations, !length_fmap.
Qed.

Lemma split_label_numbered (l : string) n :
  split_label l = (l, "") → split_label (l +:+ Py.str n) = (l, Py.str n).
Proof.
  induction l as [|c l IH]; intros Hl.
  - rewrite app_nil_l_str. destruct (str_head_digit n) as (c & s & -> & Hc).
    simpl. by rewrite Hc.
  - rewrite app_cons_str. simpl in *. destruct (is_digit c); [done|].
    destruct (split_label l) as [l' d'] eqn:E. simplify_eq. by rewrite IH.
Qed.

Lemma split_label_token r n :
  split_label (token r n) = (label r, if decide (r = ChoiceColumn) then "" else Py.str n).
Proof. destruct r; try done; by apply split_label_numbered. Qed.

Lemma token_inj r n r' n' :
  token r n = token r' n' →
  r = r' ∧ (r ≠ ChoiceColumn → n = n').
Proof.
  intros H. apply (f_equal split_label) in H.
  rewrite !split_label_token in H.
  injection H as Hl Hs.
  assert (r = r') as <- by (destruct r, r'; done).
  split; [done|]. intros Hr. destruct (decide _); [done|]. by apply str_inj.
Qed.

Lemma elem_of_enum m r e :
  e ∈ enum m r ↔
  ∃ i name, e = (r, S i, name) ∧ names_of m r !! i = Some name.
Proof.
  unfold enum. rewrite list_elem_of_lookup. split.
  - intros (i & Hi). apply lookup_zip_with_Some in Hi
      as (p & name & -> & Hp & Hn).
    rewrite list_lookup_fmap in Hp.
    destruct (seq 1 _ !! i) as [k|] eqn:Hk; simplify_eq/=.
    apply lookup_seq in Hk as [-> _]. eauto.
  - intros (i & name & -> & Hn). exists i.
    apply lookup_zip_with_Some. eexists _, _. split_and!; [done| |done].
    rewrite list_lookup_fmap, lookup_seq_lt; [done|].
    by apply lookup_lt_Some in Hn.
Qed.

Lemma elem_of_registrations m e :
  e ∈ registrations m ↔
  ∃ i, names_of m e.1.1 !! i = Some e.2 ∧ e.1.2 = S i.
Proof.
  unfold registrations. rewrite list_elem_of_bind. split.
  - intros (r & He & _). apply elem_of_enum in He as (i & name & -> & Hn).
    eauto.
  - intros (i & Hn & Hi). destruct e as [[r k] name]. simpl in *. subst k.
    exists r. split; [apply elem_of_enum; eauto|].
    unfold roles. destruct r; set_solver.
Qed.

Lemma enum_NoDup m r : NoDup (enum m r).
Proof.
  unfold enum. apply (NoDup_fmap_1 fst).
  rewrite fst_zip by (by rewrite length_fmap, length_seq).
  apply NoDup_fmap_2; [intros ???; congruence|].
  apply NoDup_seq.
Qed.

Lemma registrations_NoDup m : NoDup (registrations m).
Proof.
  unfold registrations. apply NoDup_bind.
  - intros r1 r2 e _ _ H1 H2.
    apply elem_of_enum in H1 as (?&?&->&_).
    apply elem_of_enum in H2 as (?&?&?&_). congruence.
  - intros r _. apply enum_NoDup.
  - by apply (bool_decide_unpack _).
Qed.

Lemma reg_token_inj m e1 e2 :
  e1 ∈ registrations m → e2 ∈ registrations m →
  reg_token e1 = reg_token e2 → e1 = e2.
Proof.
  intros H1 H2 Ht.
  apply elem_of_registrations in H1 as (i1 & Hn1 & Hi1).
  apply elem_of_registrations in H2 as (i2 & Hn2 & Hi2).
  destruct e1 as [[r1 k1] n1], e2 as [[r2 k2] n2].
  unfold reg_token in Ht. simpl in *.
  apply token_inj in Ht as [Hr Hk]. subst r2.
  assert (i1 = i2) as <-.
  { destruct (decide (r1 = ChoiceColumn)) as [->|Hne].
    - simpl in *. apply lookup_lt_Some in Hn1, Hn2. simpl in *. lia.
    - specialize (Hk Hne). lia. }
  congruence.
Qed.

Lemma abbreviations_NoDup m : NoDup (abbreviations m).
Proof.
  rewrite abbreviations_registrations.
  apply NoDup_fmap_2_strong; [|apply registrations_NoDup].
  intros ????. by apply (reg_token_inj m).
Qed.

(** ** [dict(zip(ks, vs))] *)

Lemma dict_of_pairs_snoc l k v :
  dict_of_pairs (l ++ [(k, v)]) = <[k := v]> (dict_of_pairs l).
Proof. unfold dict_of_pairs. by rewrite foldl_snoc. Qed.

Lemma dict_of_pairs_None l k :
  dict_of_pairs l !! k = None ↔ k ∉ l.*1.
Proof.
  induction l as [|[k' v'] l IH] using rev_ind.
  - split; [set_solver|done].
  - rewrite dict_of_pairs_snoc, lookup_insert_None, IH, fmap_app.
    set_solver.
Qed.

Lemma dict_of_pairs_Some l k v :
  dict_of_pairs l !! k = Some v ↔
  ∃ before after, l = before ++ (k, v) :: after ∧ k ∉ after.*1.
Proof.
  induction l as [|[k' v'] l IH] using rev_ind.
  - split; [done|]. intros (b & a & H & _). by destruct b.
  - rewrite dict_of_pairs_snoc, lookup_insert_Some, IH. split.
    + intros [[-> ->]|[Hne (b & a & -> & Ha)]].
      * exists l, []. split; [done|set_solver].
      * exists b, (a ++ [(k', v')]). split; [by rewrite <- app_assoc|].
        rewrite fmap_app. set_solver.
    + intros (b & a & Heq & Ha).
      destruct a as [|x a _] using rev_ind.
      * apply app_inj_tail in Heq as [-> [= -> ->]]. by left.
      * rewrite app_comm_cons, app_assoc in Heq.
        apply app_inj_tail in Heq as [Hl Hx]. subst l x.
        rewrite fmap_app in Ha. right. split; [set_solver|].
        exists b, a. split; [done|set_solver].
Qed.

Lemma zip_fmap_diag {A} (f g : A → string) (l : list A) :
  zip (f <$> l) (g <$> l) = (λ x, (f x, g x)) <$> l.
Proof.
  induction l as [|x l IH]; [done|]. rewrite !fmap_cons. simpl.
  f_equal. apply IH.
Qed.

Lemma abbreviation_pairs m :
  abbreviation m
  = dict_of_pairs ((λ e, (reg_name e, reg_token e)) <$> registrations m).
Proof.
  unfold abbreviation, Py.dict_zip.
  by rewrite full_registrations, abbreviations_registrations, zip_fmap_diag.
Qed.

Lemma elongation_pairs m :
  elongation m
  = dict_of_pairs ((λ e, (reg_token e, reg_name e)) <$> registrations m).
Proof.
  unfold elongation, Py.dict_zip.
  by rewrite full_registrations, abbreviations_registrations, zip_fmap_diag.
Qed.

(** The forward table holds, for a name, the token of its last
    registration. *)
Lemma abbreviation_Some m name t :
  abbreviation m !! name = Some t ↔
  ∃ before r i after,
    registrations m = before ++ (r, i, name) :: after
    ∧ (name ∉ reg_name <$> after)
    ∧ t = token r i.
Proof.
  rewrite abbreviation_pairs, dict_of_pairs_Some. split.
  - intros (b & a & Heq & Ha).
    apply fmap_app_inv in Heq as (b' & a' & -> & Ha' & ->).
    destruct a' as [|[[r i] n] a']; simplify_eq/=.
    exists b', r, i, a'. split_and!; [done| |done].
    by rewrite <- list_fmap_compose in Ha.
  - intros (b & r & i & a & -> & Ha & ->).
    eexists _, _. rewrite fmap_app, fmap_cons. split; [done|].
    by rewrite <- list_fmap_compose.
Qed.

Lemma abbreviation_None m name :
  abbreviation m !! name = None ↔ name ∉ full m.
Proof.
  rewrite abbreviation_pairs, dict_of_pairs_None, full_registrations.
  by rewrite <- list_fmap_compose.
Qed.

(** The reverse table holds every registration. *)
Lemma elongation_Some m t name :
  elongation m !! t = Some name ↔
  ∃ r i, (r, i, name) ∈ registrations m ∧ t = token r i.
Proof.
  rewrite elongation_pairs, dict_of_pairs_Some. split.
  - intros (b & a & Heq & Ha).
    apply fmap_app_inv in Heq as (b' & a' & -> & Ha' & Hr).
    destruct a' as [|[[r i] n] a']; simplify_eq/=.
    exists r, i. split; [|done]. rewrite Hr. set_solver.
  - intros (r & i & Hin & ->).
    apply list_elem_of_split in Hin as (b & a & Heq).
    eexists _, _. rewrite Heq, fmap_app, fmap_cons. split; [done|].
    rewrite <- list_fmap_compose. intros Hin.
    apply list_elem_of_fmap in Hin as (e & He & Hin). simpl in He.
    pose proof (registrations_NoDup m) as Hnd. rewrite Heq in Hnd.
    apply NoDup_app in Hnd as (_ & _ & Hnd).
    apply NoDup_cons in Hnd as [Hnotin _].
    assert (e = (r, i, name)); [|by subst].
    apply (reg_token_inj m); [rewrite Heq; set_solver..|done].
Qed.

Lemma elongation_None m t :
  elongation m !! t = None ↔ t ∉ abbreviations m.
Proof.
  rewrite elongation_pairs, dict_of_pairs_None, abbreviations_registrations.
  by rewrite <- list_fmap_compose.
Qed.

(** C5.  For every long name registered in the abbreviation registry,
    [elongate (abbreviate name)] returns the name.  A string that was never
    registered as a long name is returned unchanged by [abbreviate], and a
    string that was never registered as a token makes [elongate] fail with
    [KeyError], a [LookupError]. *)
Theorem round_trip m :
  (∀ name, name ∈ full m → elongate m (abbreviate m name) = Py.Ok name)
  ∧ (∀ s, s ∉ full m → abbreviate m s = s)
  ∧ (∀ s, s ∉ abbreviations m → elongate m s = Py.Raise (Py.KeyError s)).
Proof.
  split_and!.
  - intros name Hin. unfold abbreviate, elongate.
    destruct (abbreviation m !! name) as [t|] eqn:Ht.
    + apply abbreviation_Some in Ht as (b & r & i & a & Hr & _ & ->).
      assert (elongation m !! token r i = Some name) as ->; [|done].
      apply elongation_Some. exists r, i. split; [|done].
      rewrite Hr. set_solver.
    + by apply abbreviation_None in Ht.
  - intros s Hs. unfold abbreviate.
    by apply abbreviation_None in Hs as ->.
  - intros s Hs. unfold elongate. by apply elongation_None in Hs as ->.
Qed.

Lemma round_trip_witness :
  elongate m0 (abbreviate m0 "car_time") = Py.Ok "car_time"
  ∧ abbreviate m0 "weather" = "weather"
  ∧ elongate m0 "weather" = Py.Raise (Py.KeyError "weather").
Proof.
  destruct (round_trip m0) as (H1 & H2 & H3). split_and!.
  - apply H1. vm_compute. set_solver.
  - apply H2. vm_compute. set_solver.
  - apply H3. vm_compute. set_solver.
Defined.

(** C7, as stated, fails on [m0]: the choice column is registered, its token
    is the bare label [alt], and no role and index give [alt] as the label
    followed by the index. *)
Lemma choice_column_token_has_no_index :
  ¬ token_is_prefix_and_index m0.
Proof.
  intros H. destruct (H "choice") as (r & i & Hin & Heq).
  { vm_compute. set_solver. }
  apply elem_of_registrations in Hin as (j & Hn & Hi). simpl in *. subst i.
  assert (abbreviate m0 "choice" = "alt") as Ha by (by vm_compute).
  rewrite Ha in Heq. apply (f_equal split_label) in Heq.
  rewrite split_label_numbered in Heq by (by destruct r).
  destruct (str_head_digit (S j)) as (c & s & Hs & _). rewrite Hs in Heq.
  vm_compute in Heq. destruct r; discriminate.
Qed.

(** C7, amended.  The token of a registered long name is the one handed out
    at its last registration: the bare label [alt] for the choice column,
    and for every other role the role's label followed by the 1-based
    position of the name in the role's list.  Two different registered
    names never have the same token. *)
Theorem token_of_last_registration m name :
  name ∈ full m →
  (∃ before r i after,
      registrations m = before ++ (r, i, name) :: after
      ∧ (name ∉ reg_name <$> after)
      ∧ abbreviate m name = token r i)
  ∧ (∀ name', name' ∈ full m →
       abbreviate m name = abbreviate m name' → name = name').
Proof.
  intros Hin. split.
  - unfold abbreviate. destruct (abbreviation m !! name) as [t|] eqn:Ht.
    + apply abbreviation_Some in Ht as (b & r & i & a & ? & ? & ->).
      by exists b, r, i, a.
    + by apply abbreviation_None in Ht.
  - intros name' Hin' Heq.
    destruct (round_trip m) as (Hrt & _ & _).
    pose proof (Hrt name Hin) as H1. pose proof (Hrt name' Hin') as H2.
    rewrite Heq in H1. congruence.
Qed.

Lemma token_of_last_registration_witness :
  "time" ∈ full m0
  ∧ ∃ before r i after,
      registrations m0 = before ++ (r, i, "time") :: after
      ∧ ("time" ∉ reg_name <$> after)
      ∧ abbreviate m0 "time" = token r i.
Proof.
  assert ("time" ∈ full m0) as Hin by (vm_compute; set_solver).
  split; [exact Hin|]. exact (proj1 (token_of_last_registration m0 "time" Hin)).
Defined.

(** C8.  When a long name is registered under two different roles, both
    tokens elongate to it, and the forward table holds for it one token
    only, that of its last registration. *)
Theorem last_write_wins m name r1 i1 r2 i2 :
  r1 ≠ r2 →
  (r1, i1, name) ∈ registrations m →
  (r2, i2, name) ∈ registrations m →
  elongate m (token r1 i1) = Py.Ok name
  ∧ elongate m (token r2 i2) = Py.Ok name
  ∧ ∃ before r i after,
      registrations m = before ++ (r, i, name) :: after
      ∧ (name ∉ reg_name <$> after)
      ∧ abbreviation m !! name = Some (token r i).
Proof.
  intros _ H1 H2.
  assert (∀ r i, (r, i, name) ∈ registrations m →
                 elongate m (token r i) = Py.Ok name) as Hel.
  { intros r i Hin. unfold elongate.
    assert (elongation m !! token r i = Some name) as ->; [|done].
    apply elongation_Some. eauto. }
  split_and!; [by apply Hel..|].
  assert (name ∈ full m) as Hin.
  { rewrite full_registrations. apply list_elem_of_fmap.
    by exists (r1, i1, name). }
  destruct (abbreviation m !! name) as [t|] eqn:Ht.
  - apply abbreviation_Some in Ht as (b & r & i & a & ? & ? & ->).
    by exists b, r, i, a.
  - by apply abbreviation_None in Ht.
Qed.

Lemma last_write_wins_witness :
  elongate m_shared (token Variable_ 1) = Py.Ok "income"
  ∧ elongate m_shared (token Parameter_ 1) = Py.Ok "income"
  ∧ ∃ before r i after,
      registrations m_shared = before ++ (r, i, "income") :: after
      ∧ ("income" ∉ reg_name <$> after)
      ∧ abbreviation m_shared !! "income" = Some (token r i).
Proof.
  apply (last_write_wins m_shared "income" Variable_ 1 Parameter_ 1).
  - discriminate.
  - vm_compute. set_solver.
  - vm_compute. set_solver.
Defined.

Lemma test_shared : abbreviate m_shared "income" = "prm1".
Proof. by vm_compute. Qed.

(** ** [synthetic_model] *)

Lemma setitem_fresh {V} (d : Py.dict V) k v :
  k ∉ d.*1 → Py.setitem d k v = d ++ [(k, v)].
Proof.
  induction d as [|[k' v'] d IH]; intros Hk; simpl; [done|].
  rewrite fmap_cons, not_elem_of_cons in Hk. destruct Hk as [Hne Hk].
  simpl in Hne. rewrite decide_False by done. by rewrite IH.
Qed.

Lemma foldl_setitem_fresh {V} (d items : Py.dict V) :
  NoDup ((d ++ items).*1) →
  foldl (λ d kv, Py.setitem d kv.1 kv.2) d items = d ++ items.
Proof.
  revert d. induction items as [|[k v] items IH]; intros d Hnd; simpl.
  - by rewrite app_nil_r.
  - rewrite setitem_fresh.
    + rewrite IH; rewrite <- app_assoc; [done|]. done.
    + rewrite fmap_app, fmap_cons in Hnd. apply NoDup_app in Hnd as (_ & Hd & _).
      intros Hin. apply (Hd k Hin). simpl. left.
Qed.

Lemma dict_of_items_fresh {V} (items : Py.dict V) :
  NoDup items.*1 → Py.dict_of_items items = items.
Proof. intros. unfold Py.dict_of_items. by rewrite foldl_setitem_fresh. Qed.

Lemma enumerate_fmap_seq {A B} (f : nat → A) (g : nat → A → B) n :
  (λ '(number, x), g number x) <$> Py.enumerate (f <$> seq 1 n)
  = (λ k, g (k - 1) (f k)) <$> seq 1 n.
Proof.
  unfold Py.enumerate. rewrite length_fmap, length_seq.
  apply list_eq. intros i. rewrite !list_lookup_fmap.
  destruct (decide (i < n)) as [Hi|Hi].
  - rewrite (lookup_seq_lt 1) by done. simpl.
    erewrite (proj2 (lookup_zip_with_Some _ _ _ _ _)); [simpl|].
    2:{ eexists i, (f (1 + i)). split_and!; [done|by rewrite lookup_seq_lt|].
        by rewrite list_lookup_fmap, lookup_seq_lt. }
    do 2 f_equal. lia.
  - rewrite (lookup_ge_None_2 (seq 1 n)) by (rewrite length_seq; lia).
    rewrite lookup_ge_None_2; [done|].
    rewrite length_zip_with, length_seq. lia.
Qed.

Lemma all_but_last_fmap_seq {A} (f : nat → A) n :
  Py.all_but_last (f <$> seq 1 n) = f <$> seq 1 (n - 1).
Proof.
  unfold Py.all_but_last. rewrite length_fmap, length_seq, <- fmap_take.
  f_equal. destruct n as [|n]; [done|].
  replace (S n - 1) with n by lia.
  rewrite seq_S, take_app_length'; [done|by rewrite length_seq].
Qed.

Lemma last_item_fmap_seq {A} (f : nat → A) n :
  0 < n → Py.last_item (f <$> seq 1 n) = Py.Ok (f n).
Proof.
  intros Hn. unfold Py.last_item. destruct n as [|n]; [lia|].
  rewrite seq_S, fmap_app. change (f <$> [1 + n]) with [f (S n)].
  by rewrite last_snoc.
Qed.

Lemma string_of_uint_digits d : all_digits (NilEmpty.string_of_uint d) = true.
Proof. induction d; simpl; auto. Qed.

Lemma str_digits n : all_digits (Py.str n) = true.
Proof. apply string_of_uint_digits. Qed.

Lemma digits_sep_inj (s1 s2 r1 r2 : string) c :
  all_digits s1 = true → all_digits s2 = true → is_digit c = false →
  s1 +:+ String c r1 = s2 +:+ String c r2 → s1 = s2 ∧ r1 = r2.
Proof.
  revert s2. induction s1 as [|a s1 IH]; intros [|b s2] H1 H2 Hc Heq;
    rewrite ?app_cons_str, ?app_nil_l_str in Heq; simplify_eq/=.
  - done.
  - rewrite Hc in H2. done.
  - rewrite Hc in H1. done.
  - apply andb_prop in H1 as [_ H1]. apply andb_prop in H2 as [_ H2].
    destruct (IH s2 H1 H2 Hc) as [-> ->]; done.
Qed.

Lemma prefixed_str_inj (p : string) n n' :
  p +:+ Py.str n = p +:+ Py.str n' → n = n'.
Proof. intros H%(inj (String.app p)). by apply str_inj. Qed.

Lemma column_name_inj k i k' i' :
  column_name k i = column_name k' i' → k = k' ∧ i = i'.
Proof.
  unfold column_name, alternative_name. rewrite !app_assoc_str.
  intros H%(inj (String.app "alternative")).
  apply digits_sep_inj in H as [Hk Hi]; [|apply str_digits..|done].
  apply str_inj in Hk. apply (prefixed_str_inj "variable") in Hi. done.
Qed.

Global Instance alternative_name_inj : Inj (=) (=) alternative_name.
Proof. intros k k' H. by apply (prefixed_str_inj "alternative"). Qed.

Global Instance variable_name_inj : Inj (=) (=) variable_name.
Proof. intros k k' H. by apply (prefixed_str_inj "variable"). Qed.

Lemma alternatives_NoDup n : NoDup (alternative_name <$> seq 1 n).
Proof. apply NoDup_fmap_2; [apply _|apply NoDup_seq]. Qed.

Lemma numbered_items_fresh (g : nat → string) n :
  Py.dict_of_items
    ((λ '(number, alternative), (alternative, g (number + 1)))
       <$> Py.enumerate (alternative_name <$> seq 1 n))
  = (λ k, (alternative_name k, g k)) <$> seq 1 n.
Proof.
  rewrite (enumerate_fmap_seq alternative_name (λ number x, (x, g (number + 1)))).
  rewrite dict_of_items_fresh.
  - apply list_fmap_ext. intros i k Hk. apply lookup_seq in Hk as [-> _].
    do 2 f_equal. lia.
  - rewrite <- list_fmap_compose. apply alternatives_NoDup.
Qed.

Lemma columns_items_fresh i n :
  Py.dict_of_items
    ((λ alternative, (alternative, alternative +:+ "_variable" +:+ Py.str i))
       <$> (alternative_name <$> seq 1 n))
  = (λ k, (alternative_name k, column_name k i)) <$> seq 1 n.
Proof.
  rewrite dict_of_items_fresh; rewrite <- !list_fmap_compose; [done|].
  apply alternatives_NoDup.
Qed.

Lemma foldl_setitem_seq {V} (key : nat → string) (val : nat → V) n :
  Inj (=) (=) key →
  foldl (λ d number, Py.setitem d (key number) (val number)) [] (seq 1 n)
  = (λ i, (key i, val i)) <$> seq 1 n.
Proof.
  intros Hinj.
  transitivity (foldl (λ d kv, Py.setitem d kv.1 kv.2) []
                  ((λ i, (key i, val i)) <$> seq 1 n)).
  { generalize (@nil (string * V)). induction (seq 1 n) as [|x l IH];
      intros d; simpl; [done|]. by rewrite IH. }
  rewrite foldl_setitem_fresh; [done|]. simpl.
  rewrite <- list_fmap_compose. by apply NoDup_fmap_2, NoDup_seq.
Qed.

Lemma get_fmap_seq {V} (key : nat → string) (val : nat → V) s n k :
  Inj (=) (=) key → s ≤ k < s + n →
  Py.get ((λ i, (key i, val i)) <$> seq s n) (key k) = Some (val k).
Proof.
  intros Hinj. revert s. induction n as [|n IH]; intros s Hk; [lia|].
  simpl. destruct (decide (key s = key k)) as [->%Hinj|Hne]; [done|].
  apply IH. assert (s ≠ k) by congruence. lia.
Qed.

Lemma specification_fold (intercepts : Py.dict string) (ic : nat → string)
    (lc : string) n (d : Py.dict string) s :
  NoDup (d.*1 ++ (alternative_name <$> seq s n)) →
  (∀ k, k ∈ seq s n →
        Py.getitem intercepts (alternative_name k) = Py.Ok (ic k)) →
  foldl (λ acc alternative,
           specification ← acc;
           intercept ← Py.getitem intercepts alternative;
           mret (Py.setitem specification alternative
                   (Py.join " + " [intercept; lc])))
        (Py.Ok d) (alternative_name <$> seq s n)
  = Py.Ok (d ++ ((λ k, (alternative_name k, Py.join " + " [ic k; lc]))
                   <$> seq s n)).
Proof.
  revert d s. induction n as [|n IH]; intros d s Hnd Hget; simpl.
  - by rewrite app_nil_r.
  - rewrite Hget by (simpl; left). simpl.
    rewrite setitem_fresh.
    2:{ apply NoDup_app in Hnd as (_ & Hd & _). intros Hin.
        apply (Hd _ Hin). simpl. left. }
    unfold mret, Py.result_ret.
    rewrite IH.
    + by rewrite <- app_assoc.
    + rewrite fmap_app. simpl. rewrite <- app_assoc. done.
    + intros k Hk. apply Hget. simpl. by right.
Qed.

Lemma join_cons sep x y l :
  Py.join sep (x :: y :: l) = x +:+ sep +:+ Py.join sep (y :: l).
Proof. reflexivity. Qed.

Lemma mjoin_fmap_bind {A B} (f : A → list B) (l : list A) :
  mjoin (f <$> l) = l ≫= f.
Proof.
  induction l as [|x l IH]; [done|].
  rewrite fmap_cons, bind_cons. simpl. by rewrite IH.
Qed.

Lemma columns_NoDup A V :
  NoDup (seq 1 V ≫= λ i, (λ k, column_name k i) <$> seq 1 A).
Proof.
  apply NoDup_bind.
  - intros i i' c _ _ (k & -> & _)%list_elem_of_fmap (k' & H & _)%list_elem_of_fmap.
    by apply column_name_inj in H as [_ ?].
  - intros i _. apply NoDup_fmap_2; [|apply NoDup_seq].
    intros k k' H. by apply column_name_inj in H as [? _].
  - apply NoDup_seq.
Qed.

Lemma products_linear V (columns : nat → Py.dict string) :
  (λ pair : string * string, pair.1 +:+ "*" +:+ pair.2)
    <$> zip ((λ number, "parameter" +:+ Py.str number) <$> seq 1 V)
          (Py.keys ((λ i, (variable_name i, columns i)) <$> seq 1 V))
  = (λ i, parameter_name i +:+ "*" +:+ variable_name i) <$> seq 1 V.
Proof.
  unfold Py.keys. rewrite <- (list_fmap_compose _ fst).
  change (fst ∘ _) with variable_name.
  rewrite (zip_fmap_diag (λ number, "parameter" +:+ Py.str number) variable_name).
  by rewrite <- list_fmap_compose.
Qed.

(** C9.  For a title and positive counts [A] and [V], [synthetic_model]
    returns a model with the [A] alternatives, one availability column per
    alternative, [V] alternative-dependent variables that map every
    alternative to a column of its own, [V] parameters, one intercept for
    every alternative but the last, and for each alternative the utility
    that sums its intercept, when it has one, and parameter [i] times
    variable [i] for every [i]. *)
Theorem synthetic_model_shape title A V :
  0 < A → 0 < V →
  ∃ model,
    synthetic_model title A V = Py.Ok model
    ∧ ml_title model = title
    ∧ ml_alternatives model = alternative_name <$> seq 1 A
    ∧ length (ml_alternatives model) = A
    ∧ NoDup (ml_alternatives model)
    ∧ ml_availability model
      = (λ k, (alternative_name k, availability_name k)) <$> seq 1 A
    ∧ ml_alternative_independent_variables model = []
    ∧ ml_alternative_dependent_variables model
      = (λ i, (variable_name i,
               (λ k, (alternative_name k, column_name k i)) <$> seq 1 A))
          <$> seq 1 V
    ∧ length (ml_alternative_dependent_variables model) = V
    ∧ NoDup (mjoin (Py.values
                      <$> Py.values (ml_alternative_dependent_variables model)))
    ∧ ml_parameters model = parameter_name <$> seq 1 V
    ∧ ml_intercepts model
      = (λ k, (alternative_name k, intercept_name k)) <$> seq 1 (A - 1)
    ∧ ml_specification model
      = (λ k, (alternative_name k, linear_utility A V k)) <$> seq 1 A.
Proof.
  intros HA HV. unfold synthetic_model. cbv zeta.
  rewrite all_but_last_fmap_seq.
  rewrite (numbered_items_fresh (λ n, "availability" +:+ Py.str n)).
  rewrite (numbered_items_fresh (λ n, "c" +:+ Py.str n)).
  rewrite (foldl_setitem_seq variable_name
             (λ number, Py.dict_of_items
                ((λ alternative,
                    (alternative, alternative +:+ "_variable" +:+ Py.str number))
                   <$> (alternative_name <$> seq 1 A)))) by apply _.
  rewrite (specification_fold _ intercept_name _ (A - 1) [] 1).
  2:{ simpl. apply alternatives_NoDup. }
  2:{ intros k Hk%elem_of_seq. unfold Py.getitem.
      rewrite (get_fmap_seq alternative_name intercept_name); [done|apply _|lia]. }
  rewrite last_item_fmap_seq by done. simpl.
  eexists. split; [reflexivity|]. simpl.
  assert (Hvars :
    (λ number, (variable_name number,
        Py.dict_of_items
          ((λ alternative,
              (alternative, alternative +:+ "_variable" +:+ Py.str number))
             <$> (alternative_name <$> seq 1 A)))) <$> seq 1 V
    = (λ i, (variable_name i,
             (λ k, (alternative_name k, column_name k i)) <$> seq 1 A))
        <$> seq 1 V).
  { apply list_fmap_ext. intros _ i _. by rewrite columns_items_fresh. }
  rewrite !Hvars.
  split_and!; try done.
  - by rewrite length_fmap, length_seq.
  - apply alternatives_NoDup.
  - by rewrite length_fmap, length_seq.
  - unfold Py.values. rewrite <- !list_fmap_compose, mjoin_fmap_bind.
    erewrite list_bind_ext; [apply (columns_NoDup A V)| |done].
    intros i. simpl. by rewrite <- list_fmap_compose.
  - rewrite products_linear.
    rewrite setitem_fresh.
    2:{ rewrite <- list_fmap_compose. intros (k & Hk & Hin)%list_elem_of_fmap.
        apply elem_of_seq in Hin. simpl in Hk.
        apply (inj alternative_name) in Hk. lia. }
    destruct A as [|a]; [lia|]. replace (S a - 1) with a by lia.
    rewrite seq_S, fmap_app. f_equal.
    + apply list_fmap_ext. intros _ k Hk%list_elem_of_lookup_2%elem_of_seq.
      f_equal. unfold linear_utility. rewrite decide_True by lia.
      destruct V as [|v]; [lia|]. reflexivity.
    + simpl. unfold linear_utility. rewrite decide_False by lia. done.
Qed.

Lemma synthetic_model_shape_witness :
  ∃ model,
    synthetic_model "Synthetic" 3 2 = Py.Ok model
    ∧ ml_specification model
      = [("alternative1", "c1 + parameter1*variable1 + parameter2*variable2");
         ("alternative2", "c2 + parameter1*variable1 + parameter2*variable2");
         ("alternative3", "parameter1*variable1 + parameter2*variable2")].
Proof.
  destruct (synthetic_model_shape "Synthetic" 3 2) as (model & H & Hrest);
    [lia..|].
  exists model. split; [exact H|].
  destruct Hrest as (_&_&_&_&_&_&_&_&_&_&_&->). by vm_compute.
Defined.

(** ** The input-file serializer *)

Lemma join_blank_snoc c x l :
  Py.join " " ((c +:+ " " +:+ x) :: l) = c +:+ " " +:+ Py.join " " (x :: l).
Proof.
  destruct l as [|y l]; [done|].
  rewrite !join_cons. by rewrite !app_assoc_str.
Qed.

Lemma alo_record_join m command args :
  _alo_record m command args
  = textwrap.wrap (Py.join " " (command :: (abbreviate m <$> args)))
      Alo._MAX_LINE_LENGTH.
Proof.
  unfold _alo_record. f_equal. revert command.
  induction args as [|arg args IH]; intros command; [done|].
  simpl. rewrite IH. apply join_blank_snoc.
Qed.

Lemma foldl_raise {A B} (body : B → A → Py.result B) e l :
  foldl (λ acc x, acc ≫= λ s, body s x) (Py.Raise e) l = Py.Raise e.
Proof. induction l as [|x l IH]; [done|]. simpl. apply IH. Qed.

Lemma foldl_app_acc {A C} (g : A → list C) (l : list A) (init : list C) :
  foldl (λ acc x, acc ++ g x) init l = init ++ (l ≫= g).
Proof.
  revert init. induction l as [|x l IH]; intros init; simpl.
  - by rewrite app_nil_r.
  - by rewrite IH, app_assoc.
Qed.

Lemma wrapped_app rs1 rs2 : wrapped (rs1 ++ rs2) = wrapped rs1 ++ wrapped rs2.
Proof. unfold wrapped. apply bind_app. Qed.

Lemma wrapped_cons r rs :
  wrapped (r :: rs) = textwrap.wrap r Alo._MAX_LINE_LENGTH ++ wrapped rs.
Proof. reflexivity. Qed.

Lemma term_string_grammar m choice term :
  term_string m choice term = utility_term m choice term.
Proof.
  unfold term_string, utility_term, indexed.
  case_bool_decide; by rewrite ?app_assoc_str.
Qed.

Lemma utility_string_grammar m choice :
  _utility_string m choice
  = (λ utility, utility_expression m utility choice)
      <$> Py.getitem (specification m) choice.
Proof.
  unfold _utility_string. destruct (Py.getitem _ _) as [utility|e]; [|done].
  simpl. unfold mret, Py.result_ret. f_equal. unfold utility_expression.
  f_equal.
  rewrite (foldl_app_acc (λ term, [term_string m choice term])).
  f_equal.
  - by destruct (intercept utility).
  - induction (terms utility) as [|t ts IH]; [done|].
    rewrite bind_cons, fmap_cons, IH, term_string_grammar. done.
Qed.

Lemma for_each_records {A B} (f : A → Py.result B) (r : A → B → string)
    (body : list string → A → Py.result (list string)) (l : list A)
    (init : list string) :
  (∀ acc x,
     body acc x
     = (y ← f x;
        mret (acc ++ textwrap.wrap (r x y) Alo._MAX_LINE_LENGTH))) →
  Py.for_each l init body
  = (rs ← mapM (λ x, r x <$> f x) l; mret (init ++ wrapped rs)).
Proof.
  intros Hbody. unfold Py.for_each. revert init.
  induction l as [|x l IH]; intros init; simpl.
  - unfold mret, Py.result_ret. by rewrite app_nil_r.
  - rewrite Hbody. destruct (f x) as [y|e]; simpl.
    + unfold mret, Py.result_ret. rewrite IH.
      destruct (mapM (λ x, r x <$> f x) l) as [rs|e]; simpl; [|done].
      unfold mret, Py.result_ret. by rewrite app_assoc.
    + apply foldl_raise.
Qed.

Lemma column_loop m variable mapping alo :
  foldl (λ alo '(choice, column_label),
           alo ++ _alo_record m (_array_record m variable choice)
                    [column_label])
        alo mapping
  = alo ++ wrapped (column_record m variable <$> mapping).
Proof.
  revert alo. induction mapping as [|[choice column] mapping IH];
    intros alo; simpl.
  - by rewrite app_nil_r.
  - rewrite IH, alo_record_join, <- app_assoc. done.
Qed.

Lemma array_loop m variables alo :
  foldl (λ alo '(variable, mapping),
           let alo :=
             alo ++ _alo_record m Alo._ALO_COMMAND_ARRAY
                      [_array m variable "alts"] in
           foldl (λ alo '(choice, column_label),
                    alo ++ _alo_record m (_array_record m variable choice)
                             [column_label])
                 alo mapping)
        alo variables
  = alo ++ wrapped (variables ≫= λ '(variable, mapping),
                      array_record m variable
                        :: (column_record m variable <$> mapping)).
Proof.
  revert alo. induction variables as [|[variable mapping] variables IH];
    intros alo; simpl.
  - by rewrite app_nil_r.
  - rewrite column_loop, IH, alo_record_join, <- !app_assoc.
    by rewrite wrapped_app.
Qed.

Lemma wrapped_nil : wrapped [] = [].
Proof. reflexivity. Qed.

(** C1, as stated, fails on the two-alternative model [m0]: the code writes
    the alternative tokens after the closed parentheses of the nest record,
    not inside them, writes the recode record before the array records, not
    after them, and leaves two blanks after the title command, so that its
    lines differ from the wrapped records of the stated sequence. *)
Lemma stated_record_sequence_differs :
  let column_labels := ["v1"; "cv1"; "cv2"; "av1"; "av2"; "alt"] in
  _create_alo_file m0 "Simple.csv" column_labels
  = Py.Ok ["$title  Simple model"; "$estimate"; "$coeff prm1 prm2 c1";
           "$nest root() ch1 ch2";
           "file (name=Simple.csv) v1 cv1 cv2 av1 av2 alt";
           "Avail(ch1) = av1"; "Avail(ch2) = av2";
           "choice=recode(alt ch1, ch2)";
           "$array v2(alts)"; "v2(ch1) = cv1"; "v2(ch2) = cv2";
           "Util(ch1) = c1 + prm1*v1 + prm2*v2(ch1)";
           "Util(ch2) = prm2*v2(ch2)"]
  ∧ wrapped <$> stated_records m0 "Simple.csv" column_labels
    = Py.Ok ["$title Simple model"; "$estimate"; "$coeff prm1 prm2 c1";
             "$nest root(ch1 ch2)";
             "file (name=Simple.csv) v1 cv1 cv2 av1 av2 alt";
             "Avail(ch1) = av1"; "Avail(ch2) = av2";
             "$array v2(alts)"; "v2(ch1) = cv1"; "v2(ch2) = cv2";
             "choice=recode(alt ch1, ch2)";
             "Util(ch1) = c1 + prm1*v1 + prm2*v2(ch1)";
             "Util(ch2) = prm2*v2(ch2)"]
  ∧ _create_alo_file m0 "Simple.csv" column_labels
    ≠ wrapped <$> stated_records m0 "Simple.csv" column_labels.
Proof.
  split_and!; [by vm_compute..|].
  intros Heq. by vm_compute in Heq.
Qed.

(** C1, amended: for every model, the lines of the input file are the
    wrapped records of [records], that is, in this order: the title record
    (the title command, two blanks, the title), the estimate record, the
    coeff record with the parameters then the intercepts, the nest record
    [$nest root()] followed by the alternatives, the file record with the
    column labels, one Avail record per alternative, the recode record, per
    alternative-dependent variable its array record followed by one column
    record per entry of its mapping, and one Util record per alternative
    whose utility expression is the intercept, when there is one, and the
    terms joined by a plus sign between blanks, a term carrying the
    alternative in parentheses exactly when its variable is
    alternative-dependent.  Every argument of a record is passed through
    [abbreviate], and so are the strings the code composes from tokens: the
    title, the keywords [Avail], [Util] and [alts], the array name with its
    [(alts)] suffix and the whole utility expression are replaced by a token
    when they are registered long names, and are written as they are
    otherwise.  The serializer raises exactly when a lookup of [records]
    does. *)
Theorem alo_file_is_wrapped_records m data_file column_labels :
  _create_alo_file m data_file column_labels
  = wrapped <$> records m data_file column_labels.
Proof.
  unfold _create_alo_file, records.
  rewrite (for_each_records
             (λ choice, Py.getitem (availability m) choice)
             (avail_record m)).
  2:{ intros acc x. destruct (Py.getitem _ _) as [column|e]; [|done].
      cbn [mbind Py.result_bind]. by rewrite alo_record_join. }
  destruct (mapM _ (alternatives m)) as [avail|e]; [|done].
  cbn [mbind Py.result_bind mret Py.result_ret].
  rewrite array_loop.
  rewrite (for_each_records
             (λ choice, Py.getitem (specification m) choice)
             (util_record m)).
  2:{ intros acc x. rewrite utility_string_grammar.
      destruct (Py.getitem _ _) as [utility|e]; [|done].
      cbn [mbind Py.result_bind fmap Py.result_fmap].
      by rewrite alo_record_join. }
  destruct (mapM _ (alternatives m)) as [util|e]; [|done].
  cbn [mbind Py.result_bind mret Py.result_ret fmap Py.result_fmap].
  f_equal.
  rewrite !alo_record_join.
  rewrite !wrapped_app, !wrapped_cons, !wrapped_nil, !app_nil_r.
  rewrite <- !app_assoc. reflexivity.
Qed.

(** ** Type validation *)

(** C10.  Construction gets past the validation exactly when the class of
    the model argument is one of the classes of [_valid_models]; an
    instance of a strict subclass of a supported class, though an instance
    of that class for [isinstance], is rejected with [TypeError], and so is
    an instance of a subclass of [MultinomialLogit] by the constructor of
    the ALOGIT interface, whatever the keyword arguments. *)
Theorem construction_checks_exact_type cls model :
  (Interface__init__ cls model = Py.Ok model
   ↔ type_of model ∈ _valid_models cls)
  ∧ (type_of model ∉ _valid_models cls →
     Interface__init__ cls model = Py.Raise Py.TypeError)
  ∧ (∀ c, c ∈ _valid_models cls →
          issubclass (type_of model) c = true → type_of model ≠ c →
          isinstance model c = true
          ∧ Interface__init__ cls model = Py.Raise Py.TypeError)
  ∧ (∀ name, type_of model = Derived name MultinomialLogit_ →
       isinstance model MultinomialLogit_ = true
       ∧ ∀ (F : Type) w kw,
           AlogitInterface__init__ (F := F) w model kw
           = Py.Raise Py.TypeError).
Proof.
  assert (Hno : type_of model ∉ _valid_models cls →
                Interface__init__ cls model = Py.Raise Py.TypeError).
  { intros Hn. unfold Interface__init__, _ensure_valid_model.
    by rewrite bool_decide_true. }
  assert (Hyes : type_of model ∈ _valid_models cls →
                 Interface__init__ cls model = Py.Ok model).
  { intros Hy. unfold Interface__init__, _ensure_valid_model.
    rewrite bool_decide_false; [done|]. by intros []. }
  split_and!.
  - split; [|done]. intros Hok.
    destruct (decide (type_of model ∈ _valid_models cls)) as [|Hn]; [done|].
    by rewrite Hno in Hok.
  - done.
  - intros c Hc Hsub Hne. split; [done|]. apply Hno.
    destruct cls; simpl in *; set_solver.
  - intros name Hty. split.
    + unfold isinstance, issubclass. rewrite Hty.
      apply bool_decide_eq_true. simpl. set_solver.
    + intros F w kw. unfold AlogitInterface__init__, Interface__init__,
        _ensure_valid_model.
      rewrite bool_decide_true; [done|]. rewrite Hty. simpl. set_solver.
Qed.

Lemma construction_checks_exact_type_witness :
  isinstance derived_model MultinomialLogit_ = true
  ∧ ∀ (F : Type) w kw,
      AlogitInterface__init__ (F := F) w derived_model kw
      = Py.Raise Py.TypeError.
Proof.
  destruct (construction_checks_exact_type AlogitInterface_ derived_model)
    as (_ & _ & _ & H).
  apply (H "NestedLogit"). reflexivity.
Defined.

(** ** A failed solver run *)

Lemma init0 :
  AlogitInterface__init__ (world succeeded []) model0 kwargs0
  = Py.Ok interface0.
Proof. vm_compute. reflexivity. Qed.

(** C2, on a run of the solver that exits with status 1: [estimate] raises
    nothing, the flag stays false, the completed process with its output is
    kept, every result accessor fails with the not-estimated error, and so
    does [display_results], which therefore does not show the output. *)
Theorem failed_run_hides_solver_output :
  let after := (estimate decimal (world failed []) interface0).1 in
  (estimate decimal (world failed []) interface0).2 = Py.Ok ()
  ∧ _estimated after = false
  ∧ process after = Some failed
  ∧ null_log_likelihood after = Py.Raise Py.NotEstimated
  ∧ final_log_likelihood after = Py.Raise Py.NotEstimated
  ∧ parameters_ after = Py.Raise Py.NotEstimated
  ∧ standard_errors after = Py.Raise Py.NotEstimated
  ∧ t_values after = Py.Raise Py.NotEstimated
  ∧ estimation_time after = Py.Raise Py.NotEstimated
  ∧ display_results after = Py.Raise Py.NotEstimated.
Proof. vm_compute. repeat split. Qed.

(** ** A failed parse *)

(** C3, as stated, fails on a log that ends after one of three coefficient
    rows: [estimate] raises [IndexError], yet the flag is set and the row
    that was read and the null log-likelihood are kept. *)
Lemma short_log_leaves_partial_result :
  let after := (estimate decimal (world succeeded short_log) interface0).1 in
  (estimate decimal (world succeeded short_log) interface0).2
  = Py.Raise Py.IndexError
  ∧ _estimated after = true
  ∧ parameters_ after = Py.Ok {[ "p_income" := "0.50" ]}
  ∧ null_log_likelihood after = Py.Ok "-50.0".
Proof. vm_compute. repeat split. Qed.

(** C4, as stated, fails on a line that contains both likelihood texts: the
    final log-likelihood is captured from it, the null log-likelihood is
    not. *)
Lemma overlapping_triggers_capture_one :
  let after :=
    (estimate decimal (world succeeded overlapping_log) interface0).1 in
  (estimate decimal (world succeeded overlapping_log) interface0).2 = Py.Ok ()
  ∧ _final_log_likelihood (estimates after) = Some "-40.0"
  ∧ _null_log_likelihood (estimates after) = None.
Proof. vm_compute. repeat split. Qed.

(** ** The log parser *)

Section ParseFacts.

Context {F : Type} (float : string → option F).

Lemma parse_row_empty m (est : Estimates) :
  parse_row float m est "" = (est, Py.Raise Py.IndexError).
Proof. reflexivity. Qed.

Lemma parse_row_unknown m (est : Estimates) line tok :
  Py.split line !! 0 = Some tok → tok ∉ abbreviations m →
  parse_row float m est line = (est, Py.Raise (Py.KeyError tok)).
Proof.
  intros Htok Hun. unfold parse_row, Py.index. rewrite Htok. simpl.
  unfold elongate. by apply elongation_None in Hun as ->.
Qed.

Lemma parse_lines_rows_app m (est : Estimates) good rest k :
  parse_lines float m (length good + k) est (good ++ rest)
  = match parse_lines float m (length good) est good with
    | (est', Py.Ok _) => parse_lines float m k est' rest
    | failed => failed
    end.
Proof.
  revert est. induction good as [|line good IH]; intros est; simpl.
  - destruct k; done.
  - destruct (parse_row float m est line) as [est' [[]|e]]; [apply IH|done].
Qed.

Lemma parse_lines_scan_app m (est : Estimates) before rest :
  Forall (λ line, branch_of line ≠ Header) before →
  parse_lines float m 0 est (before ++ rest)
  = match parse_lines float m 0 est before with
    | (est', Py.Ok _) => parse_lines float m 0 est' rest
    | failed => failed
    end.
Proof.
  intros Hno. revert est.
  induction Hno as [|line before Hline _ IH]; intros est; simpl.
  - by destruct rest.
  - unfold branch_of in Hline.
    destruct (Py.contains FINAL line).
    { destruct (assign _ _ _ _) as [est' [[]|e]]; [apply IH|done]. }
    destruct (Py.contains INITIAL line).
    { destruct (assign _ _ _ _) as [est' [[]|e]]; [apply IH|done]. }
    destruct (Py.contains HEADER line); [done|].
    destruct (Py.contains TIME line); [|apply IH].
    destruct (assign _ _ _ _) as [est' [[]|e]]; [apply IH|done].
Qed.

Lemma parse_lines_header m (est : Estimates) line rest :
  branch_of line = Header →
  parse_lines float m 0 est (line :: rest)
  = parse_lines float m (number_of_parameters m) est rest.
Proof.
  unfold branch_of. simpl.
  destruct (Py.contains FINAL line); [done|].
  destruct (Py.contains INITIAL line); [done|].
  destruct (Py.contains HEADER line); [done|].
  by destruct (Py.contains TIME line).
Qed.

Lemma assign_Ok (set : Estimates → F → Estimates) (est est' : Estimates)
    field :
  assign float set est field = (est', Py.Ok ()) →
  ∃ x, field ≫= float_of float = Py.Ok x ∧ est' = set est x.
Proof.
  unfold assign. destruct (field ≫= float_of float) as [x|e]; [|done].
  intros [= <-]. eauto.
Qed.

Lemma parse_row_Ok m (est est' : Estimates) line :
  parse_row float m est line = (est', Py.Ok ()) →
  ∃ name x1 x2 x3,
    row_entry float m 1 line = Some (name, x1)
    ∧ row_entry float m 2 line = Some (name, x2)
    ∧ row_entry float m 3 line = Some (name, x3)
    ∧ est' = set_t_value (set_error (set_parameter est name x1) name x2)
               name x3.
Proof.
  unfold parse_row, row_entry, field_value.
  destruct (Py.index (Py.split line) 0 ≫= elongate m) as [name|e]; [|done].
  destruct (assign float _ est _) as [est1 [[]|e]] eqn:H1; [|done].
  apply assign_Ok in H1 as (x1 & -> & ->).
  destruct (assign float _ _ (Py.index _ 2)) as [est2 [[]|e]] eqn:H2; [|done].
  apply assign_Ok in H2 as (x2 & -> & ->).
  intros (x3 & -> & ->)%assign_Ok.
  by exists name, x1, x2, x3.
Qed.

Lemma captured_cons b pick (old : option F) line scanned :
  captured float b pick old (line :: scanned)
  = captured float b pick
      (if decide (branch_of line = b) then field_value float pick line
       else old)
      scanned.
Proof.
  unfold captured. rewrite filter_cons.
  destruct (decide (branch_of line = b)); [|done].
  rewrite last_cons.
  by destruct (last _).
Qed.

Lemma field_value_Ok pick line x :
  pick (Py.split line) ≫= float_of float = Py.Ok x →
  field_value float pick line = Some x.
Proof. unfold field_value. by intros ->. Qed.

Lemma parse_lines_extracts m rows (est est' : Estimates) lines tp te tt :
  parse_lines float m rows est lines = (est', Py.Ok ()) →
  _parameters est = Some tp → _errors est = Some te →
  _t_values est = Some tt →
  let K := number_of_parameters m in
  let scanned := scanned_lines K rows lines in
  let crows := coefficient_rows K rows lines in
  _final_log_likelihood est'
  = captured float Final Py.last_item (_final_log_likelihood est) scanned
  ∧ _null_log_likelihood est'
    = captured float Initial Py.last_item (_null_log_likelihood est) scanned
  ∧ _estimation_time est'
    = captured float Time Py.second_to_last (_estimation_time est) scanned
  ∧ _parameters est' = Some (row_table float m 1 tp crows)
  ∧ _errors est' = Some (row_table float m 2 te crows)
  ∧ _t_values est' = Some (row_table float m 3 tt crows)
  ∧ length crows
    = rows + K * length (filter (λ line, branch_of line = Header) scanned).
Proof.
  intros Hparse Hp He Ht K. simpl.
  revert rows est tp te tt Hparse Hp He Ht.
  induction lines as [|line rest IH]; intros rows est tp te tt Hparse Hp He Ht.
  - destruct rows as [|rows]; simpl in Hparse; [|done].
    injection Hparse as <-. simpl. split_and!; first [done|lia].
  - destruct rows as [|rows].
    + cbn [scanned_lines coefficient_rows].
      rewrite !captured_cons, filter_cons.
      cbn [parse_lines] in Hparse.
      destruct (Py.contains FINAL line) eqn:HF.
      { assert (branch_of line = Final) as Hb
          by (unfold branch_of; by rewrite HF).
        destruct (assign float _ est _) as [est1 [[]|e]] eqn:H1; [|done].
        apply assign_Ok in H1 as (x & Hx & ->).
        rewrite (field_value_Ok _ _ _ Hx), Hb.
        destruct (IH _ _ _ _ _ Hparse Hp He Ht) as (?&?&?&?&?&?&?).
        repeat case_decide; done. }
      destruct (Py.contains INITIAL line) eqn:HI.
      { assert (branch_of line = Initial) as Hb
          by (unfold branch_of; by rewrite HF, HI).
        destruct (assign float _ est _) as [est1 [[]|e]] eqn:H1; [|done].
        apply assign_Ok in H1 as (x & Hx & ->).
        rewrite (field_value_Ok _ _ _ Hx), Hb.
        destruct (IH _ _ _ _ _ Hparse Hp He Ht) as (?&?&?&?&?&?&?).
        repeat case_decide; done. }
      destruct (Py.contains HEADER line) eqn:HH.
      { assert (branch_of line = Header) as Hb
          by (unfold branch_of; by rewrite HF, HI, HH).
        rewrite Hb.
        destruct (IH _ _ _ _ _ Hparse Hp He Ht) as (?&?&?&?&?&?&Hlen).
        repeat case_decide; try done.
        split_and!; try done. cbn [length]. fold K in Hlen. lia. }
      destruct (Py.contains TIME line) eqn:HT.
      { assert (branch_of line = Time) as Hb
          by (unfold branch_of; by rewrite HF, HI, HH, HT).
        destruct (assign float _ est _) as [est1 [[]|e]] eqn:H1; [|done].
        apply assign_Ok in H1 as (x & Hx & ->).
        rewrite (field_value_Ok _ _ _ Hx), Hb.
        destruct (IH _ _ _ _ _ Hparse Hp He Ht) as (?&?&?&?&?&?&?).
        repeat case_decide; done. }
      assert (branch_of line = Ignored) as Hb
        by (unfold branch_of; by rewrite HF, HI, HH, HT).
      rewrite Hb.
      destruct (IH _ _ _ _ _ Hparse Hp He Ht) as (?&?&?&?&?&?&?).
      repeat case_decide; done.
    + cbn [scanned_lines coefficient_rows parse_lines] in *.
      destruct (parse_row float m est line) as [est1 [[]|e]] eqn:Hrow;
        [|done].
      apply parse_row_Ok in Hrow as (name & x1 & x2 & x3 & E1 & E2 & E3 & ->).
      edestruct (IH rows _ (<[name := x1]> tp) (<[name := x2]> te)
                   (<[name := x3]> tt) Hparse)
        as (?&?&?&?&?&?&Hlen).
      { simpl. by rewrite Hp. }
      { simpl. by rewrite He. }
      { simpl. by rewrite Ht. }
      unfold row_table. cbn [foldl length]. rewrite E1, E2, E3.
      split_and!; try done. lia.
Qed.

(** C4, amended.  After a parse that succeeds, the final log-likelihood is
    the trailing field of the last scanned line containing the final text;
    the null log-likelihood that of the last scanned line containing the
    initial text and not the final one; the elapsed time the second-to-last
    field of the last scanned line containing the time text and none of the
    other three; each header line, which contains neither likelihood text,
    is followed by exactly [K] lines read as coefficient rows, whose four
    fields are stored under the elongated name of the first; the rows are
    not scanned for the texts, and all other lines are ignored. *)
Theorem parser_extracts m (est0 est' : Estimates) lines :
  parse_lines float m 0 (reset_tables est0) lines = (est', Py.Ok ()) →
  let K := number_of_parameters m in
  let scanned := scanned_lines K 0 lines in
  let rows := coefficient_rows K 0 lines in
  _final_log_likelihood est'
  = captured float Final Py.last_item (_final_log_likelihood est0) scanned
  ∧ _null_log_likelihood est'
    = captured float Initial Py.last_item (_null_log_likelihood est0) scanned
  ∧ _estimation_time est'
    = captured float Time Py.second_to_last (_estimation_time est0) scanned
  ∧ _parameters est' = Some (row_table float m 1 ∅ rows)
  ∧ _errors est' = Some (row_table float m 2 ∅ rows)
  ∧ _t_values est' = Some (row_table float m 3 ∅ rows)
  ∧ length rows
    = K * length (filter (λ line, branch_of line = Header) scanned).
Proof.
  intros Hparse.
  by apply (parse_lines_extracts m 0 (reset_tables est0) est' lines ∅ ∅ ∅).
Qed.

(** C3, amended.  When the solver exits with status 0 and, after a header
    line of the log, a coefficient row starts with a token that was never
    handed out or the log ends before the [K] rows, [estimate] raises
    [KeyError] or [IndexError]; the flag, set before the parse, stays set,
    the process is not stored, and the attributes are left as the lines
    read before the failure made them. *)
Theorem failed_parse_keeps_flag_and_rows
    (w : World) (self : AlogitInterface) p before header good tail
    (est0 est1 : Estimates) :
  let m := attributes (model self) in
  write_alo w (alo_file self) (alo self) = Py.Ok () →
  write_data w (data_file self) = Py.Ok () →
  run w [alogit_path self; abspath w (alo_file self)] = Py.Ok p →
  returncode p = 0%Z →
  read_log w (alo_file self) = Py.Ok (before ++ header :: good ++ tail) →
  Forall (λ line, branch_of line ≠ Header) before →
  parse_lines float m 0 (reset_tables (estimates self)) before
  = (est0, Py.Ok ()) →
  branch_of header = Header →
  length good < number_of_parameters m →
  parse_lines float m (length good) est0 good = (est1, Py.Ok ()) →
  match tail with
  | [] => True
  | bad :: _ =>
      ∃ tok, Py.split bad !! 0 = Some tok ∧ tok ∉ abbreviations m
  end →
  let after := (estimate float w self).1 in
  (estimate float w self).2
  = Py.Raise match tail with
             | [] => Py.IndexError
             | bad :: _ => Py.KeyError (default "" (Py.split bad !! 0))
             end
  ∧ _estimated after = true
  ∧ process after = process self
  ∧ estimates after = est1.
Proof.
  intros m Hwa Hwd Hrun Hrc Hlog Hbefore Hscan Hheader Hlen Hgood Htail.
  assert (Hparse :
    parse_lines float m 0 (reset_tables (estimates self))
      (before ++ header :: good ++ tail)
    = (est1, Py.Raise match tail with
                      | [] => Py.IndexError
                      | bad :: _ =>
                          Py.KeyError (default "" (Py.split bad !! 0))
                      end)).
  { rewrite parse_lines_scan_app, Hscan by done.
    rewrite parse_lines_header by done.
    replace (number_of_parameters m)
      with (length good + S (number_of_parameters m - length good - 1))
      by lia.
    rewrite parse_lines_rows_app, Hgood.
    destruct tail as [|bad rest]; simpl.
    - done.
    - destruct Htail as (tok & Htok & Hun).
      rewrite (parse_row_unknown _ _ _ tok), Htok by done. done. }
  unfold estimate. rewrite Hwa, Hwd, Hrun.
  rewrite bool_decide_true by done.
  unfold _parse_output_file. simpl. rewrite Hlog. fold m. rewrite Hparse.
  done.
Qed.

End ParseFacts.

Lemma failed_parse_keeps_flag_and_rows_witness :
  let after := (estimate decimal (world succeeded short_log) interface0).1 in
  (estimate decimal (world succeeded short_log) interface0).2
  = Py.Raise Py.IndexError
  ∧ _estimated after = true
  ∧ process after = None
  ∧ estimates after
    = (parse_lines decimal m0 1
         (set_null_log_likelihood (reset_tables no_estimates) "-50.0")
         ["prm1 0.50 0.10 5.0"]).1.
Proof.
  apply (failed_parse_keeps_flag_and_rows decimal
           (world succeeded short_log) interface0 succeeded
           ["Initial Log Likelihood          -50.0"]
           "Coefficient   Estimate   Std. Error 't' ratio"
           ["prm1 0.50 0.10 5.0"] []
           (set_null_log_likelihood (reset_tables no_estimates) "-50.0")).
  - reflexivity.
  - reflexivity.
  - reflexivity.
  - reflexivity.
  - reflexivity.
  - repeat constructor; by vm_compute.
  - by vm_compute.
  - by vm_compute.
  - vm_compute. lia.
  - by vm_compute.
  - exact I.
Defined.


Lemma parser_extracts_witness :
  let est' :=
    (parse_lines decimal m0 0 (reset_tables no_estimates) full_log).1 in
  _final_log_likelihood est' = Some "-40.0"
  ∧ _null_log_likelihood est' = Some "-50.0"
  ∧ _estimation_time est' = Some "3.2"
  ∧ _parameters est'
    = Some {[ "p_income" := "0.50"; "p_time" := "-0.25"; "c_car" := "1.20" ]}
  ∧ _errors est'
    = Some {[ "p_income" := "0.10"; "p_time" := "0.05"; "c_car" := "0.30" ]}
  ∧ _t_values est'
    = Some {[ "p_income" := "5.0"; "p_time" := "-5.0"; "c_car" := "4.0" ]}.
Proof.
  intros est'.
  destruct (parser_extracts decimal m0 no_estimates est' full_log)
    as (-> & -> & -> & -> & -> & -> & _).
  { by vm_compute. }
  vm_compute. repeat split.
Defined.

(** ** More on the registry *)

Lemma dict_of_pairs_dom l : dom (dict_of_pairs l) = list_to_set l.*1.
Proof.
  induction l as [|[k v] l IH] using rev_ind; [set_solver|].
  rewrite dict_of_pairs_snoc, dom_insert_L, IH, fmap_app, list_to_set_app_L.
  set_solver.
Qed.

(** X1.  The registry never hands out a token twice, even to a long name
    it meets again: the tokens are pairwise distinct, there is one per
    registration, and the reverse table holds one entry for each of them,
    whereas the forward table holds one entry per distinct long name. *)
Theorem one_token_per_registration m :
  NoDup (abbreviations m)
  ∧ length (abbreviations m) = length (full m)
  ∧ dom (elongation m) = list_to_set (abbreviations m)
  ∧ size (elongation m) = length (full m)
  ∧ dom (abbreviation m) = list_to_set (full m)
  ∧ size (abbreviation m) = length (remove_dups (full m)).
Proof.
  pose proof (abbreviations_NoDup m) as Hnd.
  assert (dom (elongation m) = list_to_set (abbreviations m)) as Hde.
  { rewrite elongation_pairs, dict_of_pairs_dom, abbreviations_registrations.
    by rewrite <- list_fmap_compose. }
  assert (dom (abbreviation m) = list_to_set (full m)) as Hda.
  { rewrite abbreviation_pairs, dict_of_pairs_dom, full_registrations.
    by rewrite <- list_fmap_compose. }
  split_and!; [done|by rewrite registrations_length|done| |done|].
  - rewrite <- size_dom, Hde, size_list_to_set by done.
    by rewrite registrations_length.
  - rewrite <- size_dom, Hda.
    rewrite <- (size_list_to_set (C := gset string) (remove_dups (full m)))
      by apply NoDup_remove_dups.
    f_equal. apply set_eq. intros x.
    by rewrite !elem_of_list_to_set, elem_of_remove_dups.
Qed.

(** X2.  Abbreviating the long name of a token gives the token back, for
    every token of the registry, exactly when no long name is registered
    twice. *)
Theorem tokens_round_trip_iff_names_distinct m :
  (∀ t, t ∈ abbreviations m → abbreviate m <$> elongate m t = Py.Ok t)
  ↔ NoDup (full m).
Proof.
  split.
  - intros Hrt. rewrite full_registrations.
    apply NoDup_fmap_2_strong; [|apply registrations_NoDup].
    intros e1 e2 H1 H2 Hname.
    apply (reg_token_inj m); [done..|].
    assert (∀ e, e ∈ registrations m → abbreviate m (reg_name e) = reg_token e)
      as Hab.
    { intros e He.
      specialize (Hrt (reg_token e)).
      rewrite abbreviations_registrations in Hrt.
      specialize (Hrt (list_elem_of_fmap_2 _ _ _ He)).
      unfold elongate in Hrt.
      destruct (elongation m !! reg_token e) as [name|] eqn:E; [|done].
      apply elongation_Some in E as (r & i & Hin & Ht).
      assert ((r, i, name) = e) as <-.
      { apply (reg_token_inj m); [done..|]. by rewrite Ht. }
      simpl in Hrt. by injection Hrt. }
    by rewrite <- !Hab, Hname.
  - intros Hnd t Ht.
    rewrite abbreviations_registrations in Ht.
    apply list_elem_of_fmap in Ht as ([[r i] name] & -> & Hin).
    unfold elongate.
    assert (elongation m !! reg_token (r, i, name) = Some name) as ->.
    { apply elongation_Some. by exists r, i. }
    simpl. f_equal. unfold abbreviate.
    assert (abbreviation m !! name = Some (token r i)) as ->; [|done].
    apply abbreviation_Some.
    apply list_elem_of_split in Hin as (before & after & Heq).
    exists before, r, i, after. split_and!; [done| |done].
    rewrite full_registrations, Heq, fmap_app, fmap_cons in Hnd.
    apply NoDup_app in Hnd as (_ & _ & Hnd).
    by apply NoDup_cons in Hnd as [? _].
Qed.


Lemma of_uint_acc_upper d acc :
  Nat.of_uint_acc d acc < (acc + 1) * 10 ^ Decimal.nb_digits d.
Proof.
  revert acc. induction d as [|d IH|d IH|d IH|d IH|d IH|d IH|d IH|d IH|d IH|d IH];
    intros acc; simpl Nat.of_uint_acc; simpl Decimal.nb_digits.
  { rewrite Nat.pow_0_r. lia. }
  all: rewrite Nat.pow_succ_r'; (eapply Nat.lt_le_trans; [apply IH|]);
    rewrite Nat.tail_mul_spec; nia.
Qed.

Lemma str_length_le n k : 0 < k → String.length (Py.str n) ≤ k ↔ n < 10 ^ k.
Proof.
  intros Hk. split; [|by apply str_length_bound].
  unfold Py.str. rewrite string_of_uint_length. intros Hlen.
  rewrite <- (Unsigned.of_to n). unfold Nat.of_uint.
  pose proof (of_uint_acc_upper (Nat.to_uint n) 0) as Hup.
  assert (10 ^ Decimal.nb_digits (Nat.to_uint n) ≤ 10 ^ k)
    by (apply Nat.pow_le_mono_r; lia).
  lia.
Qed.

Lemma token_length r number :
  String.length (token r number)
  = if decide (r = ChoiceColumn) then 3
    else String.length (label r) + String.length (Py.str number).
Proof. destruct r; simpl; by rewrite ?app_length_str. Qed.

(** X3.  Every token is at most [_MAX_CHARACTER_LENGTH] characters long
    exactly when every numbered role holds fewer than ten to the power
    [_MAX_CHARACTER_LENGTH] less the length of its prefix names: fewer than
    10^7 parameters, 10^8 alternatives, availability columns and
    alternative-dependent columns, 10^9 variables and intercepts. *)
Theorem tokens_fit_iff_roles_small m :
  Forall (λ t, String.length t ≤ Alo._MAX_CHARACTER_LENGTH) (abbreviations m)
  ↔ ∀ r, r ≠ ChoiceColumn →
      length (names_of m r)
      < 10 ^ (Alo._MAX_CHARACTER_LENGTH - String.length (label r)).
Proof.
  rewrite abbreviations_registrations, Forall_fmap, Forall_forall. split.
  - intros Hfit r Hr.
    destruct (length (names_of m r)) as [|i] eqn:Hlen.
    { pose proof (Nat.pow_nonzero 10
                    (Alo._MAX_CHARACTER_LENGTH - String.length (label r))).
      lia. }
    destruct (lookup_lt_is_Some_2 (names_of m r) i) as [name Hname]; [lia|].
    specialize (Hfit (r, S i, name)).
    unfold reg_token in Hfit. simpl in Hfit.
    rewrite token_length, decide_False in Hfit by done.
    assert (String.length (label r) ≤ 3) by (destruct r; simpl; lia).
    unfold Alo._MAX_CHARACTER_LENGTH in *.
    apply str_length_le; [lia|].
    enough (String.length (label r) + String.length (Py.str (S i)) ≤ 10)
      by lia.
    apply Hfit, elem_of_registrations. by exists i.
  - intros Hsmall [[r number] name] Hin. simpl.
    unfold reg_token. simpl. rewrite token_length.
    case_decide as Hr; [unfold Alo._MAX_CHARACTER_LENGTH; lia|].
    apply elem_of_registrations in Hin as (i & Hi & Hnumber).
    simpl in Hi, Hnumber. subst number.
    apply lookup_lt_Some in Hi. specialize (Hsmall r Hr).
    assert (String.length (label r) ≤ 3) by (destruct r; simpl; lia).
    unfold Alo._MAX_CHARACTER_LENGTH in *.
    enough (String.length (Py.str (S i)) ≤ 10 - String.length (label r))
      by lia.
    apply str_length_bound; lia.
Qed.

(** ** Outcomes of the serializer and of the constructor *)

Lemma getitem_Some {V} (d : Py.dict V) key v :
  Py.get d key = Some v → Py.getitem d key = Py.Ok v.
Proof. unfold Py.getitem. by intros ->. Qed.

Lemma getitem_None {V} (d : Py.dict V) key :
  Py.get d key = None → Py.getitem d key = Py.Raise (Py.KeyError key).
Proof. unfold Py.getitem. by intros ->. Qed.

Lemma mapM_getitem {V B} (d : Py.dict V) (r : string → V → B) keys :
  match first_missing d keys with
  | Some key => mapM (λ key, r key <$> Py.getitem d key) keys
                = Py.Raise (Py.KeyError key)
  | None => ∃ ys, mapM (λ key, r key <$> Py.getitem d key) keys = Py.Ok ys
  end.
Proof.
  induction keys as [|key keys IH]; [by eexists|].
  cbn [first_missing mapM].
  destruct (Py.get d key) as [v|] eqn:Hkey.
  - rewrite (getitem_Some _ _ _ Hkey).
    cbn [fmap Py.result_fmap mbind Py.result_bind].
    destruct (first_missing d keys) as [missing|].
    + by rewrite IH.
    + destruct IH as [ys ->]. by eexists.
  - by rewrite (getitem_None _ _ Hkey).
Qed.

Lemma alo_file_loops m data_file column_labels :
  (λ _, ()) <$> _create_alo_file m data_file column_labels
  = (mapM (λ choice,
             avail_record m choice <$> Py.getitem (availability m) choice)
          (alternatives m)
     ≫= λ _,
     mapM (λ choice,
             util_record m choice <$> Py.getitem (specification m) choice)
          (alternatives m)
     ≫= λ _, mret ()).
Proof.
  unfold _create_alo_file.
  rewrite (for_each_records
             (λ choice, Py.getitem (availability m) choice)
             (avail_record m)).
  2:{ intros acc x. destruct (Py.getitem _ _) as [column|e]; [|done].
      cbn [mbind Py.result_bind]. by rewrite alo_record_join. }
  destruct (mapM _ (alternatives m)) as [avail|e]; [|done].
  cbn [mbind Py.result_bind mret Py.result_ret].
  rewrite (for_each_records
             (λ choice, Py.getitem (specification m) choice)
             (util_record m)).
  2:{ intros acc x. rewrite utility_string_grammar.
      destruct (Py.getitem _ _) as [utility|e]; [|done].
      cbn [mbind Py.result_bind fmap Py.result_fmap].
      by rewrite alo_record_join. }
  by destruct (mapM _ (alternatives m)) as [util|e].
Qed.

(** X4.  The serializer raises [KeyError] for the first alternative that
    has no availability column; when every alternative has one, for the
    first alternative that has no utility in the specification; and it
    returns the lines of the file when no alternative lacks either. *)
Theorem alo_file_outcome m data_file column_labels :
  match first_missing (availability m) (alternatives m),
        first_missing (specification m) (alternatives m) with
  | Some choice, _ =>
      _create_alo_file m data_file column_labels
      = Py.Raise (Py.KeyError choice)
  | None, Some choice =>
      _create_alo_file m data_file column_labels
      = Py.Raise (Py.KeyError choice)
  | None, None =>
      ∃ alo, _create_alo_file m data_file column_labels = Py.Ok alo
  end.
Proof.
  pose proof (alo_file_loops m data_file column_labels) as Hloops.
  pose proof (mapM_getitem (availability m) (avail_record m)
                (alternatives m)) as Hav.
  pose proof (mapM_getitem (specification m) (util_record m)
                (alternatives m)) as Hut.
  destruct (first_missing (availability m) _) as [choice|].
  { rewrite Hav in Hloops. by destruct (_create_alo_file _ _ _); simplify_eq/=. }
  destruct Hav as [avail Hav]. rewrite Hav in Hloops.
  destruct (first_missing (specification m) _) as [choice|].
  { rewrite Hut in Hloops. by destruct (_create_alo_file _ _ _); simplify_eq/=. }
  destruct Hut as [util Hut]. rewrite Hut in Hloops.
  destruct (_create_alo_file _ _ _); [by eexists|done].
Qed.

(** X5.  Construction checks, in this order: the class of the model
    ([TypeError]), the keyword argument [alogit_path] ([KeyError]), and,
    while the input file is built, the availability column and the utility
    of every alternative ([KeyError] for the alternative).  When none of the
    checks fails the interface is returned, with the absolute path of the
    solver, the keyword arguments for the two file names when they are
    given, the abbreviated data columns as column labels and the lines of
    the input file built from the data file name and these labels. *)
Theorem construction_outcome {F : Type} (w : World) (obj : pyobject) kw :
  let m := attributes obj in
  let init := AlogitInterface__init__ (F := F) w obj kw in
  if decide (type_of obj = MultinomialLogit_) then
    match kw_alogit_path kw with
    | None => init = Py.Raise (Py.KeyError "alogit_path")
    | Some path =>
        match first_missing (availability m) (alternatives m),
              first_missing (specification m) (alternatives m) with
        | Some choice, _ => init = Py.Raise (Py.KeyError choice)
        | None, Some choice => init = Py.Raise (Py.KeyError choice)
        | None, None =>
            ∃ self,
              init = Py.Ok self
              ∧ model self = obj
              ∧ alogit_path self = abspath w path
              ∧ (∀ file, kw_data_file kw = Some file → data_file self = file)
              ∧ (∀ file, kw_alo_file kw = Some file → alo_file self = file)
              ∧ column_labels self = abbreviate m <$> data_columns m
              ∧ _create_alo_file m (data_file self) (column_labels self)
                = Py.Ok (alo self)
        end
    end
  else init = Py.Raise Py.TypeError.
Proof.
  intros m init. unfold init, AlogitInterface__init__, Interface__init__,
    _ensure_valid_model.
  case_decide as Htype.
  - rewrite bool_decide_false by (rewrite Htype; set_solver).
    cbn [mbind Py.result_bind mret Py.result_ret].
    destruct (kw_alogit_path kw) as [path|]; [|done].
    cbn [mbind Py.result_bind mret Py.result_ret]. fold m.
    match goal with
    | |- context [_create_alo_file m ?d ?c] =>
        pose proof (alo_file_outcome m d c) as Halo;
        set (file := d) in *
    end.
    destruct (first_missing (availability m) _) as [choice|].
    { by rewrite Halo. }
    destruct (first_missing (specification m) _) as [choice|].
    { by rewrite Halo. }
    destruct Halo as [lines Hlines]. rewrite Hlines.
    eexists. split; [reflexivity|]. cbn.
    split_and!; try done.
    + intros f Hf. unfold file. by rewrite Hf.
    + intros f Hf. by rewrite Hf.
  - rewrite bool_decide_true; [done|]. simpl. set_solver.
Qed.

Lemma before_blank_prefix (s : string) :
  ∃ rest,
    s = Py.before_blank s +:+ rest
    ∧ has_blank (Py.before_blank s) = false
    ∧ (rest = "" ∨ ∃ rest', rest = String " " rest').
Proof.
  induction s as [|c s (rest & Heq & Hblank & Hrest)].
  { exists "". split_and!; [reflexivity|reflexivity|by left]. }
  cbn [Py.before_blank]. destruct (Ascii.eqb c " ") eqn:Hc.
  - apply Ascii.eqb_eq in Hc as ->. exists (String " " s).
    split_and!; [by rewrite app_nil_l_str|done|right; by eexists].
  - exists rest. rewrite app_cons_str, <- Heq. cbn [has_blank].
    by rewrite Hc.
Qed.

(** X6.  When neither file name is given, the data file and the input file
    are named after the title up to its first blank, with the extensions
    [.csv] and [.alo]: the stem holds no blank and is either the whole title
    or is followed in it by a blank.  A title that starts with a blank
    gives the bare extensions. *)
Theorem default_file_names {F : Type} (w : World) obj kw
    (self : AlogitInterface (F := F)) :
  AlogitInterface__init__ w obj kw = Py.Ok self →
  kw_data_file kw = None →
  kw_alo_file kw = None →
  ∃ stem rest,
    title (attributes obj) = stem +:+ rest
    ∧ has_blank stem = false
    ∧ (rest = "" ∨ ∃ rest', rest = String " " rest')
    ∧ data_file self = stem +:+ ".csv"
    ∧ alo_file self = stem +:+ ".alo".
Proof.
  unfold AlogitInterface__init__. intros Hinit Hdata Halo.
  destruct (Interface__init__ _ _) as [obj'|e] eqn:Hobj; [|done].
  assert (obj' = obj) as ->.
  { unfold Interface__init__ in Hobj.
    destruct (_ensure_valid_model _ _); [|done].
    change (Py.Ok obj = Py.Ok obj') in Hobj. congruence. }
  cbn [mbind Py.result_bind] in Hinit.
  destruct (kw_alogit_path kw); [|done].
  cbn [mbind Py.result_bind] in Hinit.
  rewrite Hdata, Halo in Hinit.
  destruct (_create_alo_file _ _ _) as [lines|e]; [|done].
  cbn [mbind Py.result_bind mret Py.result_ret] in Hinit.
  injection Hinit as <-. cbn.
  destruct (before_blank_prefix (title (attributes obj)))
    as (rest & Heq & Hblank & Hrest).
  by exists (Py.before_blank (title (attributes obj))), rest.
Qed.

Lemma default_file_names_witness :
  ∃ stem rest,
    "Simple model" = stem +:+ rest
    ∧ has_blank stem = false
    ∧ (rest = "" ∨ ∃ rest', rest = String " " rest')
    ∧ "Simple.csv" = stem +:+ ".csv"
    ∧ "Simple.alo" = stem +:+ ".alo".
Proof.
  apply (default_file_names (world succeeded []) model0 kwargs0 interface0).
  - by vm_compute.
  - reflexivity.
  - reflexivity.
Defined.

(** ** What [estimate] keeps *)

(** X7.  [estimate] assigns no attribute of the interface but the flag, the
    process and the estimation results: the paths, the column labels and the
    lines of the input file are those of before.  It never clears the flag,
    and it stores the completed process exactly when it returns normally:
    when it raises, the process attribute is the one of before, so that after
    a failed parse the output of an earlier run is what is kept. *)
Theorem estimate_keeps_the_input {F : Type} (float : string → option F)
    (w : World) (self : AlogitInterface) :
  let after := (estimate float w self).1 in
  let outcome := (estimate float w self).2 in
  alogit_path after = alogit_path self
  ∧ data_file after = data_file self
  ∧ alo_file after = alo_file self
  ∧ column_labels after = column_labels self
  ∧ alo after = alo self
  ∧ (_estimated self = true → _estimated after = true)
  ∧ (∀ e, outcome = Py.Raise e → process after = process self)
  ∧ (outcome = Py.Ok () →
     ∃ p, run w [alogit_path self; abspath w (alo_file self)] = Py.Ok p
          ∧ process after = Some p
          ∧ (_estimated after = true
             ↔ returncode p = 0%Z ∨ _estimated self = true)).
Proof.
  unfold estimate.
  destruct (write_alo w _ _) as [[]|e1]; [|by split_and!].
  destruct (write_data w _) as [[]|e2]; [|by split_and!].
  destruct (run w _) as [p|e3]; [|by split_and!].
  case_bool_decide as Hcode.
  - unfold _parse_output_file. cbn [alo_file set_estimated].
    destruct (read_log w _) as [lines|e4]; [|by split_and!].
    destruct (parse_lines _ _ _ _ _) as [est [[]|e5]]; cbn.
    + split_and!; try done. intros _. exists p. split_and!; [done..|].
      split; [by left|done].
    + by split_and!.
  - cbn. split_and!; try done. intros _. exists p. split_and!; [done..|].
    split; [by right|]. by intros [?|?].
Qed.

(** ** More on the log parser *)

Lemma prefix_app (sub s : string) :
  String.prefix sub s = true → ∃ post, s = sub +:+ post.
Proof.
  revert s. induction sub as [|a sub IH]; intros s.
  { intros _. exists s. by rewrite app_nil_l_str. }
  destruct s as [|b s]; [done|]. simpl.
  destruct (Ascii.ascii_dec a b) as [->|]; [|done].
  intros (post & ->)%IH. exists post. by rewrite app_cons_str.
Qed.

Lemma contains_app (sub s : string) :
  Py.contains sub s = true → ∃ pre post, s = pre +:+ sub +:+ post.
Proof.
  induction s as [|c s IH]; cbn [Py.contains].
  - rewrite orb_false_r. intros (post & Heq)%prefix_app.
    exists "", post. by rewrite app_nil_l_str.
  - intros [Hpre|Hin]%orb_true_iff.
    + apply prefix_app in Hpre as (post & Heq).
      exists "", post. by rewrite app_nil_l_str.
    + apply IH in Hin as (pre & post & ->).
      exists (String c pre), post. by rewrite app_cons_str.
Qed.

Lemma fields_nonnil s : Py.fields s ≠ [].
Proof.
  induction s as [|c s IH]; simpl; [done|].
  destruct (Py.isspace c); [done|]. by destruct (Py.fields s).
Qed.

Lemma fields_app_space a c b :
  Py.isspace c = true →
  Py.fields (a +:+ String c b) = Py.fields a ++ Py.fields b.
Proof.
  intros Hc. induction a as [|x a IH].
  - rewrite app_nil_l_str. simpl. by rewrite Hc.
  - rewrite app_cons_str. simpl. rewrite IH.
    destruct (Py.isspace x); [done|].
    pose proof (fields_nonnil a). by destruct (Py.fields a).
Qed.

Lemma split_app_space a c b :
  Py.isspace c = true →
  Py.split (a +:+ String c b) = Py.split a ++ Py.split b.
Proof.
  intros Hc. unfold Py.split. by rewrite fields_app_space, filter_app.
Qed.

(** A string that holds a character other than whitespace has a field. *)
Lemma split_nonnil pre x post :
  Py.isspace x = false → Py.split (pre +:+ String x post) ≠ [].
Proof.
  intros Hx. unfold Py.split. induction pre as [|c pre IH].
  - rewrite app_nil_l_str. simpl. rewrite Hx.
    destruct (Py.fields post); simpl; by rewrite filter_cons_True.
  - rewrite app_cons_str. simpl. destruct (Py.isspace c).
    + by rewrite filter_cons_False.
    + destruct (Py.fields _); simpl; by rewrite filter_cons_True.
Qed.

Lemma last_item_Ok {A} (l : list A) : l ≠ [] → ∃ x, Py.last_item l = Py.Ok x.
Proof.
  unfold Py.last_item. intros Hl.
  destruct (last l) eqn:Hlast; [by eexists|].
  by apply last_None in Hlast.
Qed.

Lemma second_to_last_Ok {A} (l1 l2 : list A) :
  l1 ≠ [] → l2 ≠ [] → ∃ x, Py.second_to_last (l1 ++ l2) = Py.Ok x.
Proof.
  intros H1 H2. unfold Py.second_to_last.
  destruct (lookup_lt_is_Some_2 (reverse (l1 ++ l2)) 1) as [x ->];
    [|by eexists].
  rewrite length_reverse, length_app.
  destruct l1, l2; simpl; try done; lia.
Qed.

Lemma final_line_has_field line :
  Py.contains FINAL line = true →
  ∃ tok, Py.last_item (Py.split line) = Py.Ok tok.
Proof.
  intros (pre & post & ->)%contains_app.
  apply last_item_Ok. unfold FINAL. rewrite app_cons_str.
  by apply split_nonnil.
Qed.

Lemma initial_line_has_field line :
  Py.contains INITIAL line = true →
  ∃ tok, Py.last_item (Py.split line) = Py.Ok tok.
Proof.
  intros (pre & post & ->)%contains_app.
  apply last_item_Ok. unfold INITIAL. rewrite app_cons_str.
  by apply split_nonnil.
Qed.

Lemma time_line_has_fields line :
  Py.contains TIME line = true →
  ∃ tok, Py.second_to_last (Py.split line) = Py.Ok tok.
Proof.
  intros (pre & post & ->)%contains_app.
  change TIME with ("Estimation" +:+ String " " "time").
  rewrite app_assoc_str, <- (app_assoc_str pre), app_cons_str.
  rewrite split_app_space by done.
  apply second_to_last_Ok.
  - change "Estimation" with ("" +:+ String "E" "stimation").
    rewrite <- app_assoc_str. by apply split_nonnil.
  - change ("time" +:+ post) with ("" +:+ String "t" ("ime" +:+ post)).
    by apply split_nonnil.
Qed.

Section ParseMore.

Context {F : Type} (float : string → option F).

Lemma assign_present (set : Estimates → F → Estimates) (est : Estimates)
    tok :
  (∃ est', assign float set est (Py.Ok tok) = (est', Py.Ok ()))
  ∨ assign float set est (Py.Ok tok) = (est, Py.Raise Py.ValueError).
Proof.
  unfold assign, float_of. cbn [mbind Py.result_bind].
  destruct (float tok); [left; by eexists|by right].
Qed.

(** X8.  Reading a log that has no coefficient table, the parser raises
    neither [IndexError] nor [KeyError]: a line that holds one of the
    likelihood texts has a last field and a line that holds the time text
    has a second-to-last one, so that the only failure is the [ValueError]
    of [float] on a field that is no number. *)
Theorem log_without_table_raises_only_ValueError m (est est' : Estimates)
    lines e :
  Forall (λ line, branch_of line ≠ Header) lines →
  parse_lines float m 0 est lines = (est', Py.Raise e) →
  e = Py.ValueError.
Proof.
  intros Hno. revert est.
  induction Hno as [|line lines Hline _ IH]; intros est; [done|].
  cbn [parse_lines]. unfold branch_of in Hline.
  destruct (Py.contains FINAL line) eqn:Hfinal.
  { destruct (final_line_has_field line Hfinal) as [tok ->].
    destruct (assign_present set_final_log_likelihood est tok)
      as [[est1 ->]| ->]; [apply IH|congruence]. }
  destruct (Py.contains INITIAL line) eqn:Hinitial.
  { destruct (initial_line_has_field line Hinitial) as [tok ->].
    destruct (assign_present set_null_log_likelihood est tok)
      as [[est1 ->]| ->]; [apply IH|congruence]. }
  destruct (Py.contains HEADER line); [done|].
  destruct (Py.contains TIME line) eqn:Htime; [|apply IH].
  destruct (time_line_has_fields line Htime) as [tok ->].
  destruct (assign_present set_estimation_time est tok)
    as [[est1 ->]| ->]; [apply IH|congruence].
Qed.

Lemma assign_succeeds_anyway (set set2 : Estimates → F → Estimates)
    (est est' est2 : Estimates) field :
  assign float set est field = (est', Py.Ok ()) →
  ∃ est2', assign float set2 est2 field = (est2', Py.Ok ()).
Proof.
  unfold assign. destruct (field ≫= float_of float); [|done]. by eexists.
Qed.

Lemma parse_row_succeeds_anyway m (est est' est2 : Estimates) line :
  parse_row float m est line = (est', Py.Ok ()) →
  ∃ est2', parse_row float m est2 line = (est2', Py.Ok ()).
Proof.
  unfold parse_row.
  destruct (Py.index (Py.split line) 0 ≫= elongate m) as [name|e]; [|done].
  destruct (assign float _ est _) as [e1 [[]|?]] eqn:H1; [|done].
  eapply (assign_succeeds_anyway _ (λ est, set_parameter est name) _ _ est2)
    in H1 as [e1' ->].
  destruct (assign float _ e1 _) as [e2 [[]|?]] eqn:H2; [|done].
  eapply (assign_succeeds_anyway _ (λ est, set_error est name) _ _ e1')
    in H2 as [e2' ->].
  intros H3.
  by eapply (assign_succeeds_anyway _ (λ est, set_t_value est name) _ _ e2')
    in H3 as [e3' ->]; eexists.
Qed.

(** Whether the parse succeeds depends on the log, not on the attributes
    it starts from. *)
Lemma parse_lines_succeeds_anyway m rows (est est' est2 : Estimates) lines :
  parse_lines float m rows est lines = (est', Py.Ok ()) →
  ∃ est2', parse_lines float m rows est2 lines = (est2', Py.Ok ()).
Proof.
  revert rows est est2.
  induction lines as [|line lines IH]; intros rows est est2.
  { destruct rows; [by eexists|done]. }
  destruct rows as [|rows]; cbn [parse_lines].
  - destruct (Py.contains FINAL line).
    { destruct (assign float _ est _) as [e1 [[]|?]] eqn:H1; [|done].
      eapply (assign_succeeds_anyway _ set_final_log_likelihood _ _ est2)
        in H1 as [e1' ->]. apply IH. }
    destruct (Py.contains INITIAL line).
    { destruct (assign float _ est _) as [e1 [[]|?]] eqn:H1; [|done].
      eapply (assign_succeeds_anyway _ set_null_log_likelihood _ _ est2)
        in H1 as [e1' ->]. apply IH. }
    destruct (Py.contains HEADER line); [apply IH|].
    destruct (Py.contains TIME line); [|apply IH].
    destruct (assign float _ est _) as [e1 [[]|?]] eqn:H1; [|done].
    eapply (assign_succeeds_anyway _ set_estimation_time _ _ est2)
      in H1 as [e1' ->]. apply IH.
  - destruct (parse_row float m est line) as [e1 [[]|?]] eqn:H1; [|done].
    eapply (parse_row_succeeds_anyway _ _ _ est2) in H1 as [e1' ->].
    apply IH.
Qed.

Lemma captured_again b pick (old : option F) scanned :
  captured float b pick (captured float b pick old scanned) scanned
  = captured float b pick old scanned.
Proof. unfold captured. by destruct (last _). Qed.

Lemma parse_lines_again m (est0 est' : Estimates) lines :
  parse_lines float m 0 (reset_tables est0) lines = (est', Py.Ok ()) →
  parse_lines float m 0 (reset_tables est') lines = (est', Py.Ok ()).
Proof.
  intros Hfirst.
  destruct (parse_lines_succeeds_anyway _ _ _ _ (reset_tables est') _ Hfirst)
    as [est2 Hsecond].
  rewrite Hsecond. f_equal.
  apply (parse_lines_extracts float _ _ _ _ _ ∅ ∅ ∅) in Hfirst
    as (Hf1 & Hn1 & Ht1 & Hp1 & He1 & Hv1 & _); [|done..].
  apply (parse_lines_extracts float _ _ _ _ _ ∅ ∅ ∅) in Hsecond
    as (Hf2 & Hn2 & Ht2 & Hp2 & He2 & Hv2 & _); [|done..].
  cbn [reset_tables _final_log_likelihood _null_log_likelihood
       _estimation_time] in *.
  rewrite Hf1, captured_again, <- Hf1 in Hf2.
  rewrite Hn1, captured_again, <- Hn1 in Hn2.
  rewrite Ht1, captured_again, <- Ht1 in Ht2.
  rewrite <- Hp1 in Hp2. rewrite <- He1 in He2. rewrite <- Hv1 in Hv2.
  destruct est2, est'. simpl in *. congruence.
Qed.

(** X9.  Parsing the same log again changes nothing: when
    [_parse_output_file] returns normally, a second call on the object it
    leaves, reading the same log, returns normally and leaves the same
    object, although the three tables are emptied and filled again. *)
Theorem parse_again_changes_nothing (w : World)
    (self after : AlogitInterface) :
  _parse_output_file float w self = (after, Py.Ok ()) →
  _parse_output_file float w after = (after, Py.Ok ()).
Proof.
  unfold _parse_output_file.
  destruct (read_log w (alo_file self)) as [lines|?] eqn:Hlog; [|done].
  destruct (parse_lines float _ 0 _ lines) as [est [[]|?]] eqn:Hparse;
    [|done].
  intros Hafter. injection Hafter as <-. unfold with_estimates.
  cbn [alo_file model estimates].
  by rewrite Hlog, (parse_lines_again _ _ _ _ Hparse).
Qed.

End ParseMore.

Lemma log_without_table_raises_only_ValueError_witness :
  parse_lines decimal m0 0 no_estimates
    ["Initial Log Likelihood -50.0"; "Estimation time"]
  = (set_null_log_likelihood no_estimates "-50.0", Py.Raise Py.ValueError)
  ∧ Py.ValueError = Py.ValueError.
Proof.
  split; [by vm_compute|].
  apply (log_without_table_raises_only_ValueError decimal m0 no_estimates
           (set_null_log_likelihood no_estimates "-50.0")
           ["Initial Log Likelihood -50.0"; "Estimation time"]).
  - repeat constructor; by vm_compute.
  - by vm_compute.
Defined.

Lemma parse_again_changes_nothing_witness :
  let after :=
    (_parse_output_file decimal (world succeeded full_log) interface0).1 in
  _parse_output_file decimal (world succeeded full_log) after
  = (after, Py.Ok ()).
Proof.
  apply (parse_again_changes_nothing decimal (world succeeded full_log)
           interface0).
  by vm_compute.
Defined.

(** ** [synthetic_model] at its bounds *)

(** X10.  Without alternatives there is no last alternative to give the
    utility without intercept to: [synthetic_model] raises [IndexError],
    whatever the title and the number of variables. *)
Theorem synthetic_model_needs_an_alternative title V :
  synthetic_model title 0 V = Py.Raise Py.IndexError.
Proof. reflexivity. Qed.

(** X11.  Without variables the linear combination is the empty string:
    [synthetic_model] raises nothing before it calls the constructor of
    [MultinomialLogit], and the keyword arguments it hands to it hold no
    parameter and no alternative-dependent variable, the empty string as
    the utility of the last alternative and, for every other alternative, its
    intercept followed by a dangling plus sign.  What the constructor makes
    of these strings is not stated. *)
Theorem synthetic_model_without_variables title A :
  0 < A →
  ∃ model,
    synthetic_model title A 0 = Py.Ok model
    ∧ ml_alternatives model = alternative_name <$> seq 1 A
    ∧ ml_parameters model = []
    ∧ ml_alternative_dependent_variables model = []
    ∧ ml_intercepts model
      = (λ k, (alternative_name k, intercept_name k)) <$> seq 1 (A - 1)
    ∧ ml_specification model
      = ((λ k, (alternative_name k, intercept_name k +:+ " + "))
           <$> seq 1 (A - 1))
          ++ [(alternative_name A, "")].
Proof.
  intros HA. unfold synthetic_model. cbv zeta.
  rewrite all_but_last_fmap_seq.
  rewrite (numbered_items_fresh (λ n, "availability" +:+ Py.str n)).
  rewrite (numbered_items_fresh (λ n, "c" +:+ Py.str n)).
  rewrite (specification_fold _ intercept_name _ (A - 1) [] 1).
  2:{ simpl. apply alternatives_NoDup. }
  2:{ intros k Hk%elem_of_seq. unfold Py.getitem.
      rewrite (get_fmap_seq alternative_name intercept_name);
        [done|apply _|lia]. }
  rewrite last_item_fmap_seq by done.
  cbn [mbind Py.result_bind mret Py.result_ret].
  eexists. split; [reflexivity|]. cbn [ml_alternatives ml_parameters
    ml_alternative_dependent_variables ml_intercepts ml_specification].
  split_and!; try done.
  match goal with
  | |- context [Py.join " + " (?f <$> zip ?ps ?vs)] =>
      change (Py.join " + " (f <$> zip ps vs)) with ""
  end.
  rewrite app_nil_l. rewrite setitem_fresh.
  2:{ rewrite <- list_fmap_compose.
      intros (k & Hk & Hin)%list_elem_of_fmap.
      apply elem_of_seq in Hin. simpl in Hk.
      apply (inj alternative_name) in Hk. lia. }
  reflexivity.
Qed.

Lemma synthetic_model_without_variables_witness :
  ∃ model,
    synthetic_model "Synthetic" 3 0 = Py.Ok model
    ∧ ml_alternatives model = alternative_name <$> seq 1 3
    ∧ ml_parameters model = []
    ∧ ml_alternative_dependent_variables model = []
    ∧ ml_intercepts model
      = (λ k, (alternative_name k, intercept_name k)) <$> seq 1 (3 - 1)
    ∧ ml_specification model
      = ((λ k, (alternative_name k, intercept_name k +:+ " + "))
           <$> seq 1 (3 - 1))
          ++ [(alternative_name 3, "")].
Proof. apply (synthetic_model_without_variables "Synthetic" 3). lia. Defined.

(** ** [textwrap.wrap] *)

Lemma concat_cons s l : Py.concat (s :: l) = s +:+ Py.concat l.
Proof. reflexivity. Qed.

Lemma concat_app l1 l2 : Py.concat (l1 ++ l2) = Py.concat l1 +:+ Py.concat l2.
Proof.
  induction l1 as [|s l1 IH].
  - by rewrite app_nil_l, app_nil_l_str.
  - by rewrite <- app_comm_cons, !concat_cons, IH, app_assoc_str.
Qed.

Lemma concat_cons_head c l :
  Py.concat (Py.cons_head c l) = String c (Py.concat l).
Proof.
  destruct l; [done|]. cbn [Py.cons_head].
  by rewrite !concat_cons, app_cons_str.
Qed.

Lemma concat_nonempty l :
  Py.concat (filter (λ chunk, Py.nonempty chunk = true) l) = Py.concat l.
Proof.
  induction l as [|s l IH]; [done|].
  rewrite filter_cons. destruct s as [|c s].
  - rewrite decide_False by done. by rewrite concat_cons, app_nil_l_str.
  - rewrite decide_True by done. by rewrite !concat_cons, IH.
Qed.

Lemma concat_matches now p3 p2 p1 s :
  Py.concat (textwrap.matches now p3 p2 p1 s) = s.
Proof.
  revert now p3 p2 p1. induction s as [|c s IH]; intros now p3 p2 p1; [done|].
  cbn [textwrap.matches].
  destruct (textwrap.step now p3 p2 p1 (String c s)) as [ends now'].
  destruct ends; rewrite ?concat_cons, ?app_nil_l_str, concat_cons_head, IH;
    done.
Qed.

(** The chunks are a partition of the text. *)
Lemma concat_split text : Py.concat (textwrap._split text) = text.
Proof. unfold textwrap._split. by rewrite concat_nonempty, concat_matches. Qed.

Lemma split_nonempty text :
  Forall (λ chunk, chunk ≠ "") (textwrap._split text).
Proof.
  unfold textwrap._split. apply Forall_forall.
  intros chunk [Hne _]%list_elem_of_filter. by destruct chunk.
Qed.

Lemma hyphen_not_whitespace c :
  textwrap.is_hyphen c = true → textwrap._whitespace c = false.
Proof.
  unfold textwrap.is_hyphen, textwrap._whitespace, textwrap.between.
  intros ->%Nat.eqb_eq. reflexivity.
Qed.

Lemma whitespace_isspace c :
  textwrap._whitespace c = true → Py.isspace c = true.
Proof.
  unfold textwrap._whitespace, textwrap.between, textwrap.code, Py.isspace.
  generalize (nat_of_ascii c). intros n H.
  repeat (apply orb_true_iff in H as [H|H] || apply andb_true_iff in H as [? ?]);
    repeat match goal with
           | H : (_ <=? _) = true |- _ => apply Nat.leb_le in H
           | H : (_ =? _) = true |- _ => apply Nat.eqb_eq in H
           end.
  - apply orb_true_iff. left. apply orb_true_iff. left.
    apply orb_true_iff. left. apply andb_true_iff.
    split; apply Nat.leb_le; lia.
  - subst. reflexivity.
Qed.

(** What a step tells about the character it consumes and about the match
    it leaves in progress. *)
Lemma step_spec now p3 p2 p1 c s ends now' :
  textwrap.step now p3 p2 p1 (String c s) = (ends, now') →
  textwrap._whitespace c
  = match now' with textwrap.Whitespace => true | _ => false end
  ∧ (ends = false →
     (now = textwrap.Whitespace ∧ now' = textwrap.Whitespace)
     ∨ (now = textwrap.EmDash ∧ now' = textwrap.EmDash)
     ∨ (now = textwrap.Word
        ∧ (now' = textwrap.Word ∨ now' = textwrap.Nothing))).
Proof.
  unfold textwrap.step, textwrap.start.
  destruct (textwrap._whitespace c) eqn:Hws,
           (textwrap.is_hyphen c) eqn:Hhy.
  { apply hyphen_not_whitespace in Hhy. congruence. }
  all: destruct now; cbn [andb];
    repeat match goal with
           | |- context [if ?b then _ else _] => destruct b
           end;
    intros [= <- <-]; split; try done; intros; naive_solver.
Qed.

Lemma head_ok_empty now : head_ok now "".
Proof. by destruct now. Qed.

Lemma matches_uniform now p3 p2 p1 s :
  ∃ piece pieces,
    textwrap.matches now p3 p2 p1 s = piece :: pieces
    ∧ head_ok now piece
    ∧ Forall uniform pieces.
Proof.
  revert now p3 p2 p1. induction s as [|c s IH]; intros now p3 p2 p1.
  { exists "", []. split_and!; [done|apply head_ok_empty|done]. }
  cbn [textwrap.matches].
  destruct (textwrap.step now p3 p2 p1 (String c s)) as [ends now'] eqn:Hstep.
  apply step_spec in Hstep as [Hws Hends].
  destruct (IH now' p2 p1 (Some c)) as (piece & pieces & -> & Hhead & Hrest).
  cbn [Py.cons_head].
  assert (uniform (String c piece)
          ∧ (ends = false → head_ok now (String c piece))) as [Hc Hnow].
  { unfold uniform. destruct now'; cbn [head_ok] in Hhead; simpl in Hws.
    - subst piece. cbn [every]. rewrite Hws. split; [by right|].
      intros [[? ?]|[[? ?]|[-> _]]]%Hends; simplify_eq. simpl. by rewrite Hws.
    - cbn [every]. rewrite Hws, Hhead. split; [by left|].
      intros [[-> _]|[[? ?]|[? [?|?]]]]%Hends; simplify_eq. simpl.
      by rewrite Hws, Hhead.
    - cbn [every]. rewrite Hws, Hhead. split; [by right|].
      intros [[? ?]|[[-> _]|[? [?|?]]]]%Hends; simplify_eq. simpl.
      by rewrite Hws, Hhead.
    - cbn [every]. rewrite Hws, Hhead. split; [by right|].
      intros [[? ?]|[[? ?]|[-> _]]]%Hends; simplify_eq. simpl.
      by rewrite Hws, Hhead. }
  destruct ends.
  - eexists _, _. split_and!; [done|apply head_ok_empty|by constructor].
  - eexists _, _. split_and!; [done|by apply Hnow|done].
Qed.

(** Every chunk is a run of whitespace or holds none. *)
Lemma split_uniform text : Forall uniform (textwrap._split text).
Proof.
  unfold textwrap._split.
  destruct (matches_uniform textwrap.Nothing None None None text)
    as (piece & pieces & -> & Hhead & Hrest).
  simpl in Hhead. subst piece. rewrite filter_cons_False by done.
  apply Forall_forall. intros chunk [_ Hin]%list_elem_of_filter.
  by apply (proj1 (Forall_forall _ _) Hrest).
Qed.

Lemma total_app l1 l2 : total (l1 ++ l2) = total l1 + total l2.
Proof. induction l1 as [|s l1 IH]; simpl; lia. Qed.

Lemma concat_length l : String.length (Py.concat l) = total l.
Proof.
  induction l as [|s l IH]; [done|].
  rewrite concat_cons, app_length_str, IH. done.
Qed.

Lemma fill_spec width cur len chunks :
  ∃ taken rest,
    textwrap.fill width cur len chunks = (cur ++ taken, rest)
    ∧ chunks = taken ++ rest
    ∧ (len ≤ width → len + total taken ≤ width)
    ∧ match rest with
      | [] => True
      | chunk :: _ => width < len + total taken + String.length chunk
      end.
Proof.
  revert cur len. induction chunks as [|chunk chunks IH]; intros cur len.
  { exists [], []. rewrite app_nil_r. simpl. split_and!; [done..|lia|done]. }
  cbn [textwrap.fill].
  destruct (len + String.length chunk <=? width) eqn:Hfit.
  - apply Nat.leb_le in Hfit.
    destruct (IH (cur ++ [chunk]) (len + String.length chunk))
      as (taken & rest & -> & -> & Hlen & Hrest).
    exists (chunk :: taken), rest. rewrite <- app_assoc. simpl.
    split_and!; [done..|lia|].
    destruct rest; [done|]. lia.
  - apply Nat.leb_gt in Hfit. exists [], (chunk :: chunks).
    rewrite app_nil_r. simpl. split_and!; [done..|lia|lia].
Qed.

Lemma removelast_snoc {A} (l : list A) x : removelast (l ++ [x]) = l.
Proof. by rewrite removelast_last. Qed.

(** One iteration of the outer loop: blank chunks are dropped at the ends
    of the line, the chunks between them make the line, and at least one
    chunk is consumed. *)
Lemma next_line_spec width lines chunks :
  chunks ≠ [] →
  ∃ dropped1 group dropped2 rest,
    chunks = dropped1 ++ group ++ dropped2 ++ rest
    ∧ Forall (λ chunk, textwrap.strip_is_empty chunk = true) dropped1
    ∧ Forall (λ chunk, textwrap.strip_is_empty chunk = true) dropped2
    ∧ textwrap.next_line width lines chunks
      = (lines ++ match group with
                  | [] => []
                  | _ => [Py.concat group]
                  end, rest)
    ∧ length rest < length chunks
    ∧ (group ≠ [] → group_ok width chunks group).
Proof.
  intros Hne. unfold textwrap.next_line.
  (* the blank chunk dropped at the start of a line *)
  set (chunks1 :=
         match chunks with
         | first :: rest =>
             if textwrap.strip_is_empty first && bool_decide (lines ≠ [])
             then rest else chunks
         | [] => chunks
         end).
  assert (∃ dropped1,
            chunks = dropped1 ++ chunks1
            ∧ Forall (λ chunk, textwrap.strip_is_empty chunk = true) dropped1
            ∧ (dropped1 = [] → chunks1 ≠ []))
    as (dropped1 & Hchunks & Hd1 & Hprogress1).
  { subst chunks1. destruct chunks as [|first rest]; [done|].
    destruct (textwrap.strip_is_empty first) eqn:Hblank;
      [destruct (bool_decide (lines ≠ []))|]; cbn [andb].
    - exists [first]. by split_and!; [|constructor|].
    - by exists [].
    - by exists []. }
  clearbody chunks1.
  destruct (fill_spec width [] 0 chunks1)
    as (taken & rest2 & -> & Hchunks1 & Hfit & Hnext).
  rewrite app_nil_l. specialize (Hfit (Nat.le_0_l _)). simpl in Hfit, Hnext.
  (* the long word *)
  set (placed :=
         match rest2 with
         | chunk :: _ =>
             if width <? String.length chunk
             then textwrap._handle_long_word rest2 taken
             else (taken, rest2)
         | [] => (taken, rest2)
         end).
  assert (∃ cur rest,
            placed = (cur, rest)
            ∧ chunks1 = cur ++ rest
            ∧ (total cur ≤ width
               ∨ ∃ chunk, cur = [chunk] ∧ width < String.length chunk)
            ∧ (chunks1 ≠ [] → cur ≠ []))
    as (cur & rest & -> & Hcur & Hwidth & Hprogress2).
  { subst placed chunks1. destruct rest2 as [|chunk rest2].
    { exists taken, []. split_and!; [done..|by left|].
      by rewrite app_nil_r. }
    destruct (width <? String.length chunk) eqn:Hlong.
    - apply Nat.ltb_lt in Hlong. destruct taken as [|t taken].
      + exists [chunk], rest2. split_and!; [done..|right; by eexists|done].
      + exists (t :: taken), (chunk :: rest2).
        split_and!; [done..|by left|done].
    - apply Nat.ltb_ge in Hlong. exists taken, (chunk :: rest2).
      split_and!; [done..|by left|].
      destruct taken; [|done]. simpl in Hnext. lia. }
  (* the blank chunk dropped at the end of the line *)
  cbv beta iota zeta.
  destruct (last cur) as [final|] eqn:Hlast.
  - apply last_Some in Hlast as [front ->].
    destruct (textwrap.strip_is_empty final) eqn:Hblank.
    + rewrite removelast_snoc.
      exists dropped1, front, [final], rest.
      split_and!.
      * by rewrite Hchunks, Hcur, <- !app_assoc.
      * done.
      * by constructor.
      * destruct front; by rewrite ?app_nil_r.
      * rewrite Hchunks, Hcur, !length_app. simpl. lia.
      * intros Hfront. split_and!; [done| |].
        -- rewrite Hchunks, Hcur. set_solver.
        -- destruct Hwidth as [Hwidth|(chunk & Heq & _)].
           ++ left. rewrite total_app in Hwidth. lia.
           ++ destruct front; [done|]. by destruct front.
    + exists dropped1, (front ++ [final]), [], rest.
      split_and!.
      * by rewrite Hchunks, Hcur, <- !app_assoc.
      * done.
      * done.
      * by destruct front.
      * rewrite Hchunks, Hcur, !length_app. simpl. lia.
      * intros _. split_and!; [by destruct front| |].
        -- rewrite Hchunks, Hcur. set_solver.
        -- destruct Hwidth as [Hwidth|(chunk & Heq & Hlong)]; [by left|].
           right. exists chunk. split_and!; [done..|].
           destruct front as [|? [|? ?]]; by simplify_eq/=.
  - apply last_None in Hlast as ->.
    exists dropped1, [], [], rest. simpl in *.
    split_and!; [by rewrite Hchunks, Hcur|done|done|by rewrite app_nil_r| |done].
    destruct dropped1 as [|d dropped1].
    + by destruct Hprogress2; [apply Hprogress1|].
    + rewrite Hchunks, Hcur, length_app. simpl. lia.
Qed.

Lemma visible_app s t : visible (s +:+ t) = visible s +:+ visible t.
Proof.
  induction s as [|c s IH].
  - by rewrite !app_nil_l_str.
  - rewrite app_cons_str. simpl. destruct (Py.isspace c); [done|].
    by rewrite app_cons_str, IH.
Qed.

Lemma visible_blank chunk :
  textwrap.strip_is_empty chunk = true → visible chunk = "".
Proof.
  induction chunk as [|c chunk IH]; [done|]. simpl.
  intros [-> ?]%andb_true_iff. auto.
Qed.

Lemma visible_dropped dropped :
  Forall (λ chunk, textwrap.strip_is_empty chunk = true) dropped →
  visible (Py.concat dropped) = "".
Proof.
  induction 1 as [|chunk dropped Hchunk _ IH]; [done|].
  by rewrite concat_cons, visible_app, IH, visible_blank.
Qed.

Lemma group_ok_mono width rest chunks group :
  rest ⊆ chunks → group_ok width rest group → group_ok width chunks group.
Proof. intros Hsub (? & ? & ?). split_and!; [done|set_solver|done]. Qed.

(** The loop: the lines it adds are made of groups of chunks, and the only
    chunks that are in no group are blank. *)
Lemma wrap_chunks_loop_spec fuel width lines chunks :
  length chunks ≤ fuel →
  ∃ groups,
    textwrap._wrap_chunks_loop fuel width lines chunks
    = lines ++ (Py.concat <$> groups)
    ∧ Forall (group_ok width chunks) groups
    ∧ visible (Py.concat (Py.concat <$> groups))
      = visible (Py.concat chunks).
Proof.
  revert lines chunks. induction fuel as [|fuel IH]; intros lines chunks Hfuel.
  { destruct chunks; [|simpl in Hfuel; lia].
    exists []. by rewrite app_nil_r. }
  destruct (decide (chunks = [])) as [->|Hne].
  { exists []. by rewrite app_nil_r. }
  assert (textwrap._wrap_chunks_loop (S fuel) width lines chunks
          = let '(lines, chunks) := textwrap.next_line width lines chunks in
            textwrap._wrap_chunks_loop fuel width lines chunks) as ->.
  { by destruct chunks. }
  destruct (next_line_spec width lines chunks)
    as (dropped1 & group & dropped2 & rest & Hchunks & Hd1 & Hd2 & -> & Hlen
        & Hgroup); [done|].
  destruct (IH (lines ++ match group with
                         | [] => []
                         | _ => [Py.concat group]
                         end) rest) as (groups & -> & Hgroups & Hvisible);
    [lia|].
  assert (rest ⊆ chunks) as Hsub by (rewrite Hchunks; set_solver).
  assert (visible (Py.concat chunks)
          = visible (Py.concat group) +:+ visible (Py.concat rest)) as ->.
  { rewrite Hchunks, !concat_app, !visible_app.
    rewrite (visible_dropped dropped1), (visible_dropped dropped2) by done.
    by rewrite !app_nil_l_str. }
  destruct group as [|g group].
  - exists groups. rewrite app_nil_r. split_and!; [done| |].
    + eapply Forall_impl; [done|]. intros ?. by apply group_ok_mono.
    + by rewrite app_nil_l_str.
  - exists ((g :: group) :: groups). rewrite <- app_assoc. split_and!.
    + done.
    + constructor; [by apply Hgroup|].
      eapply Forall_impl; [done|]. intros ?. by apply group_ok_mono.
    + by rewrite fmap_cons, concat_cons, visible_app, Hvisible.
Qed.

Lemma visible_translate text : visible (textwrap.translate text) = visible text.
Proof.
  induction text as [|c text IH]; [done|]. cbn [textwrap.translate visible].
  destruct (textwrap._whitespace c) eqn:Hws; [|by rewrite IH].
  apply whitespace_isspace in Hws. rewrite Hws.
  change (Py.isspace textwrap.blank) with true. by cbn match.
Qed.

Lemma visible_blanks n : visible (textwrap.blanks n) = "".
Proof. induction n as [|n IH]; [done|]. simpl. by rewrite IH. Qed.

Lemma visible_expandtabs column text :
  visible (textwrap.expandtabs_from column text) = visible text.
Proof.
  revert column. induction text as [|c text IH]; intros column; [done|].
  cbn [textwrap.expandtabs_from].
  destruct (textwrap.code c =? 9) eqn:Htab.
  - rewrite visible_app, visible_blanks, app_nil_l_str, IH. simpl.
    apply Nat.eqb_eq in Htab. unfold Py.isspace.
    unfold textwrap.code in Htab. by rewrite Htab.
  - destruct (_ || _); simpl; by rewrite IH.
Qed.

Lemma visible_munge text :
  visible (textwrap._munge_whitespace text) = visible text.
Proof.
  unfold textwrap._munge_whitespace, textwrap.expandtabs.
  by rewrite visible_translate, visible_expandtabs.
Qed.

(** The groups of chunks the lines of [wrap] are made of. *)
Lemma wrap_spec text width :
  ∃ groups,
    textwrap.wrap text width = Py.concat <$> groups
    ∧ Forall (group_ok width
                (textwrap._split (textwrap._munge_whitespace text))) groups
    ∧ visible (Py.concat (Py.concat <$> groups)) = visible text.
Proof.
  unfold textwrap.wrap, textwrap._wrap_chunks.
  destruct (wrap_chunks_loop_spec
              (length (textwrap._split (textwrap._munge_whitespace text)))
              width []
              (textwrap._split (textwrap._munge_whitespace text)))
    as (groups & -> & Hgroups & Hvisible); [done|].
  exists groups. split_and!; [done..|].
  by rewrite Hvisible, concat_split, visible_munge.
Qed.

(** X12.  Wrapping moves and drops whitespace only: the characters of the
    lines that are no whitespace are, in order, those of the text, whatever
    the width.  No character of a record handed to [textwrap.wrap] by
    [_alo_record], [_specify_data_file] or [_define_alternatives] is lost
    or changed, and none is added. *)
Theorem wrap_keeps_visible_characters text width :
  visible (Py.concat (textwrap.wrap text width)) = visible text.
Proof.
  destruct (wrap_spec text width) as (groups & -> & _ & Hvisible). done.
Qed.

Lemma every_app p s t : every p (s +:+ t) = every p s && every p t.
Proof.
  induction s as [|c s IH].
  - by rewrite app_nil_l_str.
  - rewrite app_cons_str. simpl. by rewrite IH, andb_assoc.
Qed.

Lemma every_concat p l :
  Forall (λ s, every p s = true) l → every p (Py.concat l) = true.
Proof.
  induction 1 as [|s l Hs _ IH]; [done|].
  by rewrite concat_cons, every_app, Hs, IH.
Qed.

Lemma every_whitespace_blank chunk :
  every textwrap._whitespace chunk = true →
  textwrap.strip_is_empty chunk = true.
Proof.
  induction chunk as [|c chunk IH]; [done|]. simpl.
  intros [Hc ?]%andb_true_iff. rewrite (whitespace_isspace c Hc). auto.
Qed.

(** A line of the result is longer than the width only when it is a single
    chunk that holds no whitespace: with [break_long_words=False] a word
    that does not fit is put on a line of its own, and every other line
    fits in the width. *)
Lemma wrap_lines_fit_or_hold_no_whitespace text width :
  Forall (λ line,
            String.length line ≤ width
            ∨ every (λ c, negb (textwrap._whitespace c)) line = true)
         (textwrap.wrap text width).
Proof.
  destruct (wrap_spec text width) as (groups & -> & Hgroups & _).
  apply Forall_fmap. eapply Forall_impl; [done|].
  intros group (_ & Hsub & [Hfit|(chunk & -> & _ & Hblank)]).
  - left. by rewrite concat_length.
  - right. rewrite concat_cons, app_nil_r_str.
    pose proof (split_uniform (textwrap._munge_whitespace text)) as Huniform.
    rewrite Forall_forall in Huniform.
    destruct (Huniform chunk) as [Hws|Hno]; [set_solver| |done].
    apply every_whitespace_blank in Hws. congruence.
Qed.

Lemma fill_all width cur len chunks :
  len + total chunks ≤ width →
  textwrap.fill width cur len chunks = (cur ++ chunks, []).
Proof.
  revert cur len. induction chunks as [|chunk chunks IH]; intros cur len Hfit.
  { by rewrite app_nil_r. }
  cbn [textwrap.fill]. simpl in Hfit.
  rewrite (proj2 (Nat.leb_le _ _)) by lia.
  rewrite IH by lia. by rewrite <- app_assoc.
Qed.

Lemma translate_plain text :
  every blank_or_visible text = true → textwrap.translate text = text.
Proof.
  induction text as [|c text IH]; [done|]. simpl.
  intros [Hc ?]%andb_true_iff. rewrite IH by done. f_equal.
  unfold blank_or_visible in Hc.
  destruct (textwrap._whitespace c); [|done].
  simpl in Hc. by apply Ascii.eqb_eq in Hc as ->.
Qed.

Lemma expandtabs_plain column text :
  every blank_or_visible text = true →
  textwrap.expandtabs_from column text = text.
Proof.
  revert column. induction text as [|c text IH]; intros column; [done|].
  simpl. intros [Hc ?]%andb_true_iff.
  destruct (textwrap.code c =? 9) eqn:Htab.
  - apply Nat.eqb_eq in Htab. unfold blank_or_visible in Hc.
    unfold textwrap._whitespace, textwrap.between in Hc. rewrite Htab in Hc.
    simpl in Hc. apply Ascii.eqb_eq in Hc. by subst c.
  - destruct (_ || _); by rewrite IH.
Qed.

Lemma munge_plain text :
  every blank_or_visible text = true →
  textwrap._munge_whitespace text = text.
Proof.
  intros Hplain. unfold textwrap._munge_whitespace, textwrap.expandtabs.
  by rewrite expandtabs_plain, translate_plain.
Qed.

Lemma ends_visible_app s t :
  t ≠ "" → ends_visible (s +:+ t) = ends_visible t.
Proof.
  intros Ht. induction s as [|c s IH].
  - by rewrite app_nil_l_str.
  - rewrite app_cons_str. cbn [ends_visible]. rewrite IH.
    destruct (s +:+ t) eqn:Hst; [|done].
    destruct s; [|done]. rewrite app_nil_l_str in Hst. done.
Qed.

Lemma ends_visible_not_blank s :
  ends_visible s = true → textwrap.strip_is_empty s = false.
Proof.
  induction s as [|c s IH]; [done|]. cbn [ends_visible textwrap.strip_is_empty].
  destruct s as [|c' s].
  - intros Hc. by destruct (Py.isspace c).
  - intros Hs. rewrite (IH Hs). apply andb_false_r.
Qed.

Lemma wrap_chunks_one_line width all :
  all ≠ [] →
  total all ≤ width →
  Forall (λ chunk, chunk ≠ "") all →
  ends_visible (Py.concat all) = true →
  textwrap._wrap_chunks width all = [Py.concat all].
Proof.
  intros Hne Hfit Hchunks Hend. unfold textwrap._wrap_chunks.
  assert (∃ fuel, length all = S fuel) as [fuel ->].
  { destruct all; [done|by eexists]. }
  assert (textwrap.next_line width [] all = ([Py.concat all], [])) as Hnext.
  { unfold textwrap.next_line.
    assert (match all with
            | first :: rest =>
                if textwrap.strip_is_empty first
                   && bool_decide ((@nil string) ≠ [])
                then rest else all
            | [] => all
            end = all) as ->.
    { destruct all; [done|]. by rewrite andb_false_r. }
    rewrite fill_all by (simpl; lia).
    rewrite app_nil_l.
    destruct (last all) as [final|] eqn:Hlast.
    2:{ by apply last_None in Hlast. }
    apply last_Some in Hlast as [front Hfront].
    assert (textwrap.strip_is_empty final = false) as ->.
    { apply ends_visible_not_blank.
      rewrite Hfront, Forall_app, Forall_singleton in Hchunks.
      destruct Hchunks as [_ Hfinal].
      rewrite Hfront, concat_app, concat_cons, app_nil_r_str in Hend.
      by rewrite ends_visible_app in Hend. }
    by destruct all. }
  assert (textwrap._wrap_chunks_loop (S fuel) width [] all
          = let '(lines, chunks) := textwrap.next_line width [] all in
            textwrap._wrap_chunks_loop fuel width lines chunks) as ->.
  { by destruct all. }
  rewrite Hnext. by destruct fuel.
Qed.

(** X14.  A text that fits in the width is returned as a single line and
    unchanged, provided its only whitespace characters are blanks and its
    last character is no whitespace: blanks at the start and inside the
    text are kept as they are. *)
Theorem wrap_short_text_is_one_line text width :
  String.length text ≤ width →
  every blank_or_visible text = true →
  ends_visible text = true →
  textwrap.wrap text width = [text].
Proof.
  intros Hfit Hplain Hend. unfold textwrap.wrap.
  rewrite munge_plain by done.
  pose proof (concat_split text) as Hconcat.
  rewrite wrap_chunks_one_line; [by rewrite Hconcat| | | |].
  - intros Hnil. rewrite Hnil in Hconcat. by subst text.
  - by rewrite <- concat_length, Hconcat.
  - apply split_nonempty.
  - by rewrite Hconcat.
Qed.

Lemma wrap_short_text_is_one_line_witness :
  textwrap.wrap "$coeff prm1 prm2 c1" 77 = ["$coeff prm1 prm2 c1"].
Proof.
  apply wrap_short_text_is_one_line.
  - vm_compute. lia.
  - reflexivity.
  - reflexivity.
Defined.

(** ** The lines of the input file *)

Lemma wrapped_lines (P : string → Prop) rs :
  (∀ text, Forall P (textwrap.wrap text Alo._MAX_LINE_LENGTH)) →
  Forall P (wrapped rs).
Proof.
  intros HP. unfold wrapped. induction rs as [|r rs IH]; [done|].
  rewrite bind_cons. apply Forall_app. split; [apply HP|done].
Qed.

Lemma Ok_inj {A} (a b : A) : Py.Ok a = Py.Ok b → a = b.
Proof. by intros [= ->]. Qed.

(** A property of the lines of every wrapped text is a property of the
    lines of the input file. *)
Lemma alo_file_lines (P : string → Prop) m data_file column_labels alo :
  (∀ text, Forall P (textwrap.wrap text Alo._MAX_LINE_LENGTH)) →
  _create_alo_file m data_file column_labels = Py.Ok alo →
  Forall P alo.
Proof.
  intros HP. unfold _create_alo_file.
  rewrite (for_each_records
             (λ choice, Py.getitem (availability m) choice)
             (avail_record m)).
  2:{ intros acc x. destruct (Py.getitem _ _) as [column|e]; [|done].
      cbn [mbind Py.result_bind]. by rewrite alo_record_join. }
  destruct (mapM _ (alternatives m)) as [avail|e]; [|done].
  cbn [mbind Py.result_bind mret Py.result_ret].
  rewrite array_loop.
  rewrite (for_each_records
             (λ choice, Py.getitem (specification m) choice)
             (util_record m)).
  2:{ intros acc x. rewrite utility_string_grammar.
      destruct (Py.getitem _ _) as [utility|e]; [|done].
      cbn [mbind Py.result_bind fmap Py.result_fmap].
      by rewrite alo_record_join. }
  destruct (mapM _ (alternatives m)) as [util|e]; [|done].
  cbn [mbind Py.result_bind mret Py.result_ret].
  intros Halo. apply Ok_inj in Halo. subst alo.
  rewrite !alo_record_join. unfold _specify_data_file, _define_alternatives.
  rewrite !Forall_app.
  split_and!; try apply HP; try (by apply wrapped_lines); done.
Qed.

(** X13.  A line of the input file is longer than [_MAX_LINE_LENGTH]
    characters only when it is a single chunk that holds no whitespace, such
    as a title or a file name without blank that is longer than the limit:
    every other line of the file fits in the limit. *)
Theorem alo_file_lines_fit_or_hold_no_whitespace m data_file column_labels
    alo :
  _create_alo_file m data_file column_labels = Py.Ok alo →
  Forall (λ line,
            String.length line ≤ Alo._MAX_LINE_LENGTH
            ∨ every (λ c, negb (textwrap._whitespace c)) line = true)
         alo.
Proof.
  apply alo_file_lines. intros text.
  apply wrap_lines_fit_or_hold_no_whitespace.
Qed.

Lemma alo_file_lines_fit_or_hold_no_whitespace_witness :
  Forall (λ line,
            String.length line ≤ Alo._MAX_LINE_LENGTH
            ∨ every (λ c, negb (textwrap._whitespace c)) line = true)
         ["$title  Simple model"; "$estimate"; "$coeff prm1 prm2 c1";
          "$nest root() ch1 ch2";
          "file (name=Simple.csv) v1 cv1 cv2 av1 av2 alt";
          "Avail(ch1) = av1"; "Avail(ch2) = av2";
          "choice=recode(alt ch1, ch2)";
          "$array v2(alts)"; "v2(ch1) = cv1"; "v2(ch2) = cv2";
          "Util(ch1) = c1 + prm1*v1 + prm2*v2(ch1)";
          "Util(ch2) = prm2*v2(ch2)"].
Proof.
  apply (alo_file_lines_fit_or_hold_no_whitespace m0 "Simple.csv"
           ["v1"; "cv1"; "cv2"; "av1"; "av2"; "alt"]).
  by vm_compute.
Defined.

Lemma every_concat_inv p l :
  every p (Py.concat l) = true → Forall (λ s, every p s = true) l.
Proof.
  induction l as [|s l IH]; [done|].
  rewrite concat_cons, every_app. intros [? ?]%andb_true_iff.
  constructor; auto.
Qed.

Lemma translate_is_plain text :
  every blank_or_visible (textwrap.translate text) = true.
Proof.
  induction text as [|c text IH]; [done|]. simpl. rewrite IH, andb_true_r.
  unfold blank_or_visible. by destruct (textwrap._whitespace c) eqn:Hc; rewrite ?Hc.
Qed.

(** The lines of a wrapped text are not empty, and the only whitespace
    they hold are blanks. *)
Lemma wrap_lines_plain text width :
  Forall (λ line, line ≠ "" ∧ every blank_or_visible line = true)
         (textwrap.wrap text width).
Proof.
  destruct (wrap_spec text width) as (groups & -> & Hgroups & _).
  apply Forall_fmap. eapply Forall_impl; [done|].
  intros group (Hne & Hsub & _). simpl.
  pose proof (split_nonempty (textwrap._munge_whitespace text)) as Hchunks.
  pose proof (translate_is_plain (textwrap.expandtabs text)) as Hplain.
  fold (textwrap._munge_whitespace text) in Hplain.
  rewrite <- (concat_split (textwrap._munge_whitespace text)) in Hplain.
  apply every_concat_inv in Hplain.
  rewrite Forall_forall in Hchunks, Hplain.
  split.
  - destruct group as [|chunk group]; [done|].
    rewrite concat_cons. specialize (Hchunks chunk).
    destruct chunk; [|done]. exfalso. apply Hchunks; [set_solver|done].
  - apply every_concat, Forall_forall. intros chunk Hin.
    apply Hplain. set_solver.
Qed.

Lemma read_lines_line line rest :
  every blank_or_visible line = true →
  read_lines (line +:+ String newline rest) = line :: read_lines rest.
Proof.
  induction line as [|c line IH].
  - intros _. by rewrite app_nil_l_str.
  - cbn [every]. intros [Hc Hline]%andb_true_iff.
    rewrite app_cons_str. cbn [read_lines]. rewrite (IH Hline).
    destruct (Ascii.eqb c newline) eqn:Hnl; [|done].
    apply Ascii.eqb_eq in Hnl. by subst c.
Qed.

Lemma read_lines_written alo :
  Forall (λ line, every blank_or_visible line = true) alo →
  read_lines (_write_alo_file alo) = alo ++ [""].
Proof.
  unfold _write_alo_file. induction 1 as [|line alo Hline _ IH]; [done|].
  rewrite fmap_cons, concat_cons, app_assoc_str, app_cons_str, app_nil_l_str.
  by rewrite read_lines_line, IH.
Qed.

(** X15.  The text written to the input file holds the lines one by one:
    read back at its newlines it gives the lines of the interface, followed
    by the empty piece after the final newline.  No line is empty and none
    holds a newline, a tab or a carriage return, even when a title or a name
    of the model holds one. *)
Theorem written_alo_file_reads_back m data_file column_labels alo :
  _create_alo_file m data_file column_labels = Py.Ok alo →
  read_lines (_write_alo_file alo) = alo ++ [""]
  ∧ Forall (λ line, line ≠ "" ∧ every blank_or_visible line = true) alo.
Proof.
  intros Halo.
  assert (Forall (λ line, line ≠ "" ∧ every blank_or_visible line = true) alo)
    as Hlines.
  { eapply alo_file_lines; [|done]. intros text. apply wrap_lines_plain. }
  split; [|done]. apply read_lines_written.
  eapply Forall_impl; [done|]. by intros line [_ ?].
Qed.

Lemma written_alo_file_reads_back_witness :
  read_lines (_write_alo_file (alo interface0)) = alo interface0 ++ [""]
  ∧ Forall (λ line, line ≠ "" ∧ every blank_or_visible line = true)
           (alo interface0).
Proof.
  apply (written_alo_file_reads_back m0 "Simple.csv"
           ["v1"; "cv1"; "cv2"; "av1"; "av2"; "alt"]).
  by vm_compute.
Defined.

(** ** Line breaks and words *)






































